(** * Research page filter: a shallow embedding of assets/js/research-filter.js

    The script filters the publication entries of the research page by type
    and by tag, keeps a count label and a clear-filters control up to date,
    and toggles abstracts.  The page is modelled as the data the script reads
    and writes; every function below follows one function (or one listener)
    of the script. *)

From Stdlib Require Import String Ascii List Bool ZArith Lia Arith DecimalString.
Import ListNotations.
Open Scope string_scope.

(** ** The JavaScript values and operations the script uses

    A JavaScript string is a sequence of code units; [string] stands for it,
    one character per code unit.  Only equality and containment of strings
    are used, and both read the same on either representation. *)

Module JS.

(** A completed call: a normal return or a thrown [TypeError] (reading or
    writing a property of [null]). *)
Inductive completion (A : Type) : Type :=
| Normal (a : A)
| TypeError.
Arguments Normal {A} a.
Arguments TypeError {A}.

Definition bind {A B} (c : completion A) (k : A -> completion B) : completion B :=
  match c with
  | Normal a => k a
  | TypeError => TypeError
  end.

(** A string or [null]: what [getAttribute] returns, and what the two
    selection variables hold. *)
Definition value := option string.

(** [a === b] on strings and [null]. *)
Definition strict_eq (a b : value) : bool :=
  match a, b with
  | Some x, Some y => String.eqb x y
  | None, None => true
  | _, _ => false
  end.

(** [ToString]: [null] becomes the string "null". *)
Definition ToString (v : value) : string :=
  match v with
  | Some s => s
  | None => "null"
  end.

(** [v || d] for a string-or-null [v]: [null] and the empty string are
    falsy. *)
Definition or_else (v : value) (d : string) : string :=
  match v with
  | Some s => if String.eqb s "" then d else s
  | None => d
  end.

(** Truthiness of an object reference: only [null] is falsy. *)
Definition truthy {A} (r : option A) : bool :=
  match r with
  | Some _ => true
  | None => false
  end.

(** Does [search] occur in [s] at position 0? *)
Fixpoint startsWith (s search : string) {struct search} : bool :=
  match search with
  | EmptyString => true
  | String c search' =>
      match s with
      | EmptyString => false
      | String d s' => Ascii.eqb c d && startsWith s' search'
      end
  end.

(** The scan of [String.prototype.indexOf]: the smallest position [k >= from]
    at which [search] occurs, or [-1]. *)
Fixpoint indexOf_from (s search : string) (from : Z) : Z :=
  if startsWith s search then from
  else match s with
       | EmptyString => (-1)%Z
       | String _ s' => indexOf_from s' search (from + 1)%Z
       end.

(** [s.indexOf(v)]: the argument goes through [ToString] first. *)
Definition indexOf (s : string) (v : value) : Z :=
  indexOf_from s (ToString v) 0%Z.

(** [n + ""] for a non-negative integer count: its decimal digits. *)
Definition Number_toString (n : nat) : string :=
  NilZero.string_of_uint (Nat.to_uint n).

End JS.

Import JS.

Notation "x <- c ;; k" := (JS.bind c (fun x => k))
  (at level 61, c at next level, right associativity).

(** ** The DOM elements *)

Module DOM.

(** An element, as far as the script looks at it: its attributes, its class
    tokens, its inline [style.display] and its text. *)
Record Element : Type := mkElement {
  attributes : list (string * string);
  classList : list string;
  style_display : string;
  textContent : string
}.

(** [e.getAttribute(name)]: the value of the first attribute of that name,
    [null] when there is none. *)
Definition getAttribute (e : Element) (name : string) : value :=
  match find (fun kv => String.eqb (fst kv) name) (attributes e) with
  | Some kv => Some (snd kv)
  | None => None
  end.

Definition classList_contains (e : Element) (token : string) : bool :=
  existsb (String.eqb token) (classList e).

(** [e.classList.remove(token)] *)
Definition classList_remove (token : string) (e : Element) : Element :=
  mkElement (attributes e)
            (filter (fun c => negb (String.eqb token c)) (classList e))
            (style_display e) (textContent e).

(** [e.classList.add(token)]: appended unless already there. *)
Definition classList_add (token : string) (e : Element) : Element :=
  mkElement (attributes e)
            (if classList_contains e token then classList e
             else classList e ++ [token])
            (style_display e) (textContent e).

(** [e.style.display = d] on an element. *)
Definition set_display (d : string) (e : Element) : Element :=
  mkElement (attributes e) (classList e) d (textContent e).

(** [e.textContent = t] on an element. *)
Definition set_textContent (t : string) (e : Element) : Element :=
  mkElement (attributes e) (classList e) (style_display e) t.

(** The same two writes through a reference that may be [null]
    ([getElementById], [nextElementSibling]): on [null] they throw. *)
Definition write_display (r : option Element) (d : string)
  : completion (option Element) :=
  match r with
  | Some e => Normal (Some (set_display d e))
  | None => TypeError
  end.

Definition write_textContent (r : option Element) (t : string)
  : completion (option Element) :=
  match r with
  | Some e => Normal (Some (set_textContent t e))
  | None => TypeError
  end.

(** Reading [r.style.display] through such a reference. *)
Definition read_display (r : option Element) : completion string :=
  match r with
  | Some e => Normal (style_display e)
  | None => TypeError
  end.

(** [r.addEventListener("click", ...)] through such a reference. *)
Definition addEventListener (r : option Element) : completion unit :=
  match r with
  | Some _ => Normal tt
  | None => TypeError
  end.

End DOM.

Import DOM.

(** ** The page and the script's state *)

(** An element carries the class type-btn, tag-btn, both or neither. *)
Definition isTypeBtn (e : Element) : bool := classList_contains e "type-btn".
Definition isTagBtn (e : Element) : bool := classList_contains e "tag-btn".

(** The selector ".type-btn, .tag-btn" of the clear listener. *)
Definition isControl (e : Element) : bool := isTypeBtn e || isTagBtn e.

(** The parts of the document the script queries, each in document order.
    The type controls and the tag controls are kept in one list, so that an
    element carrying both classes is one element: what is written to it
    through one query shows through the other.  The publication entries,
    the pills, the count label, the clear control and the filter section
    are taken to be elements other than the controls, and other than one
    another. *)
Record Page : Type := mkPage {
  pub_entry : list Element;         (* querySelectorAll(".pub-entry") *)
  controls : list Element;          (* the elements that may be controls *)
  pub_tag : list Element;           (* querySelectorAll(".pub-tag") *)
  pub_count : option Element;       (* getElementById("pub-count") *)
  clear_filters : option Element;   (* getElementById("clear-filters") *)
  filter_section : option Element   (* querySelector(".filter-section") *)
}.

(** [querySelectorAll(".type-btn")] and [querySelectorAll(".tag-btn")]. *)
Definition type_btn (p : Page) : list Element := filter isTypeBtn (controls p).
Definition tag_btn (p : Page) : list Element := filter isTagBtn (controls p).

(** The closure's two selection variables, the page, and the number of
    [scrollIntoView] requests made so far. *)
Record State : Type := mkState {
  activeType : value;
  activeTag : value;
  page : Page;
  scrolls : nat
}.

(** [allPubs], [countEl] and [clearBtn] are references taken once at load
    time.  The script never adds or removes an element and never changes an
    id or a class other than "active", so they denote the page's own
    elements throughout. *)
Definition allPubs (s : State) : list Element := pub_entry (page s).
Definition countEl (s : State) : option Element := pub_count (page s).
Definition clearBtn (s : State) : option Element := clear_filters (page s).

Definition with_pub_entry (l : list Element) (p : Page) : Page :=
  mkPage l (controls p) (pub_tag p)
         (pub_count p) (clear_filters p) (filter_section p).
Definition with_controls (l : list Element) (p : Page) : Page :=
  mkPage (pub_entry p) l (pub_tag p)
         (pub_count p) (clear_filters p) (filter_section p).
Definition with_pub_count (r : option Element) (p : Page) : Page :=
  mkPage (pub_entry p) (controls p) (pub_tag p)
         r (clear_filters p) (filter_section p).
Definition with_clear_filters (r : option Element) (p : Page) : Page :=
  mkPage (pub_entry p) (controls p) (pub_tag p)
         (pub_count p) r (filter_section p).

(** [l[i] := f(l[i])]; nothing changes when [i] is out of range. *)
Fixpoint update_nth {A} (i : nat) (f : A -> A) (l : list A) : list A :=
  match l, i with
  | [], _ => []
  | x :: l', O => f x :: l'
  | x :: l', S i' => x :: update_nth i' f l'
  end.

(** [querySelectorAll(sel).forEach(f)]: [f] on every element matching
    [sel], where it stands in the document. *)
Definition forEachSel (sel : Element -> bool) (f : Element -> Element)
  (l : list Element) : list Element :=
  map (fun b => if sel b then f b else b) l.

(** [f] on the [i]-th element matching [sel], where it stands in the
    document: the element a listener was attached to when the script walked
    [querySelectorAll(sel)].  Nothing changes when there is no such
    element. *)
Fixpoint update_sel (sel : Element -> bool) (i : nat) (f : Element -> Element)
  (l : list Element) : list Element :=
  match l with
  | [] => []
  | x :: l' =>
      if sel x
      then match i with
           | O => f x :: l'
           | S i' => x :: update_sel sel i' f l'
           end
      else x :: update_sel sel i f l'
  end.

(** ** updateDisplay *)

Definition typeMatch (aType : value) (pub : Element) : bool :=
  let pubType := getAttribute pub "data-type" in
  strict_eq aType (Some "all") || strict_eq pubType aType.

Definition tagMatch (aTag : value) (pub : Element) : bool :=
  let pubTags := or_else (getAttribute pub "data-tags") "" in
  strict_eq aTag (Some "all") || negb (indexOf pubTags aTag =? -1)%Z.

(** The body of the [forEach] callback: the entry after it, and the counter
    [visible] after it. *)
Definition showPub (aType aTag : value) (pub : Element) (visible : nat)
  : Element * nat :=
  if typeMatch aType pub && tagMatch aTag pub
  then (set_display "" pub, S visible)
  else (set_display "none" pub, visible).

(** [allPubs.forEach(...)], threading [visible]. *)
Fixpoint forEachPub (aType aTag : value) (pubs : list Element) (visible : nat)
  : list Element * nat :=
  match pubs with
  | [] => ([], visible)
  | pub :: rest =>
      let (pub', v1) := showPub aType aTag pub visible in
      let (rest', v2) := forEachPub aType aTag rest v1 in
      (pub' :: rest', v2)
  end.

Definition countText (visible : nat) : string :=
  Number_toString visible ++ " publication"
    ++ (if negb (visible =? 1)%nat then "s" else "").

Definition clearDisplay (aType aTag : value) : string :=
  if negb (strict_eq aType (Some "all")) || negb (strict_eq aTag (Some "all"))
  then "inline-block" else "none".

Definition updateDisplay (s : State) : completion State :=
  let (pubs, visible) := forEachPub (activeType s) (activeTag s) (allPubs s) 0 in
  c <- (if truthy (countEl s)
        then write_textContent (countEl s) (countText visible)
        else Normal (countEl s)) ;;
  b <- (if truthy (clearBtn s)
        then write_display (clearBtn s) (clearDisplay (activeType s) (activeTag s))
        else Normal (clearBtn s)) ;;
  Normal (mkState (activeType s) (activeTag s)
            (with_clear_filters b (with_pub_count c (with_pub_entry pubs (page s))))
            (scrolls s)).

(** ** The click listeners *)

(** Listener of the [i]-th type control: the mark is removed from every
    element matching ".type-btn" and put on the control itself. *)
Definition typeBtn_click (i : nat) (s : State) : completion State :=
  match nth_error (type_btn (page s)) i with
  | None => Normal s
  | Some btn =>
      let cleared :=
        forEachSel isTypeBtn (classList_remove "active") (controls (page s)) in
      let marked := update_sel isTypeBtn i (classList_add "active") cleared in
      updateDisplay
        (mkState (getAttribute btn "data-type") (activeTag s)
                 (with_controls marked (page s)) (scrolls s))
  end.

(** Listener of the [i]-th tag control: the mark is removed from every
    element matching ".tag-btn" and put on the control itself. *)
Definition tagBtn_click (i : nat) (s : State) : completion State :=
  match nth_error (tag_btn (page s)) i with
  | None => Normal s
  | Some btn =>
      let cleared :=
        forEachSel isTagBtn (classList_remove "active") (controls (page s)) in
      let marked := update_sel isTagBtn i (classList_add "active") cleared in
      updateDisplay
        (mkState (activeType s) (getAttribute btn "data-tag")
                 (with_controls marked (page s)) (scrolls s))
  end.

(** What the pill listener does to one tag control. *)
Definition markTag (tag : value) (b : Element) : Element :=
  let b' := classList_remove "active" b in
  if strict_eq (getAttribute b' "data-tag") tag
  then classList_add "active" b' else b'.

(** Listener of a tag pill, over every element matching ".tag-btn". *)
Definition pubTag_click (pill : Element) (s : State) : completion State :=
  let tag := getAttribute pill "data-tag" in
  let marked := forEachSel isTagBtn (markTag tag) (controls (page s)) in
  s' <- updateDisplay
          (mkState (activeType s) tag (with_controls marked (page s)) (scrolls s)) ;;
  let filterSection := filter_section (page s') in
  if truthy filterSection
  then Normal (mkState (activeType s') (activeTag s') (page s') (S (scrolls s')))
  else Normal s'.

(** What the clear listener does to one type or tag control. *)
Definition markAll (b : Element) : Element :=
  let b' := classList_remove "active" b in
  if strict_eq (getAttribute b' "data-type") (Some "all")
     || strict_eq (getAttribute b' "data-tag") (Some "all")
  then classList_add "active" b' else b'.

(** Listener of the clear control, over every element matching
    ".type-btn, .tag-btn". *)
Definition clearFilters (s : State) : completion State :=
  let p := with_controls (forEachSel isControl markAll (controls (page s))) (page s) in
  updateDisplay (mkState (Some "all") (Some "all") p (scrolls s)).

(** ** Load-time initialisation and event dispatch *)

(** The body of the script, run once at load time.  The listeners of the
    type controls, tag controls and pills are attached to the elements the
    queries return, which cannot throw; [dispatch] below runs them.  The
    clear listener is attached through [clearBtn], under its guard. *)
Definition init (p : Page) : completion State :=
  let s := mkState (Some "all") (Some "all") p 0 in
  _ <- (if truthy (clearBtn s) then addEventListener (clearBtn s) else Normal tt) ;;
  updateDisplay s.

(** One run of one listener: of the [i]-th element of
    [querySelectorAll(".type-btn")], of [querySelectorAll(".tag-btn")], of
    [querySelectorAll(".pub-tag")], or of the clear control.  A click on an
    element carrying both control classes runs its type listener and then
    its tag listener: it is two events. *)
Inductive Event : Type :=
| ClickType (i : nat)
| ClickTag (i : nat)
| ClickPill (i : nat)
| ClickClear.

(** A click runs the listener registered on its target; a target that is not
    on the page has none. *)
Definition dispatch (ev : Event) (s : State) : completion State :=
  match ev with
  | ClickType i => typeBtn_click i s
  | ClickTag i => tagBtn_click i s
  | ClickPill i =>
      match nth_error (pub_tag (page s)) i with
      | Some pill => pubTag_click pill s
      | None => Normal s
      end
  | ClickClear => if truthy (clearBtn s) then clearFilters s else Normal s
  end.

Fixpoint run (evs : list Event) (s : State) : completion State :=
  match evs with
  | [] => Normal s
  | ev :: rest => s' <- dispatch ev s ;; run rest s'
  end.
(** ** toggleAbstract *)

(** The control handed to [toggleAbstract] with its [nextElementSibling]
    ([null] when it is the last child). *)
Record Toggle : Type := mkToggle {
  control : Element;
  nextElementSibling : option Element
}.

Definition toggleAbstract (btn : Toggle) : completion Toggle :=
  let abstractEl := nextElementSibling btn in
  d <- read_display abstractEl ;;
  if String.eqb d "none" || String.eqb d ""
  then
    a <- write_display abstractEl "block" ;;
    Normal (mkToggle (set_textContent "Abstract ▲" (control btn)) a)
  else
    a <- write_display abstractEl "none" ;;
    Normal (mkToggle (set_textContent "Abstract ▼" (control btn)) a).

(** ** Reading the page *)

(** An entry is visible unless its inline display is "none". *)
Definition isVisible (e : Element) : bool :=
  negb (String.eqb (style_display e) "none").

(** A control carries the active mark. *)
Definition isActive (e : Element) : bool := classList_contains e "active".

(** The tags string of an entry: its data-tags attribute, empty when the
    attribute is absent. *)
Definition dataTags (e : Element) : string :=
  match getAttribute e "data-tags" with
  | Some t => t
  | None => ""
  end.

(** [g] occurs in [s] as a contiguous substring. *)
Definition occurs (g s : string) : Prop :=
  exists pre post, s = pre ++ g ++ post.

(** The spec's selection predicate for an entry. *)
Definition selected (T G : value) (e : Element) : Prop :=
  (T = Some "all" \/ getAttribute e "data-type" = T)
  /\ (G = Some "all" \/ occurs (ToString G) (dataTags e)).

(** The spec's count label for [n] visible entries. *)
Definition countLabel (n : nat) : string :=
  Number_toString n ++ (if (n =? 1)%nat then " publication" else " publications").

Definition numVisible (pubs : list Element) : nat :=
  length (filter isVisible pubs).


(** ** Closed forms of the loop and of the listeners *)

(** One entry after the callback. *)
Definition showOne (T G : value) (e : Element) : Element :=
  fst (showPub T G e 0).

(** The state [updateDisplay] leaves behind. *)
Definition displayed (s : State) : State :=
  let pubs := map (showOne (activeType s) (activeTag s)) (allPubs s) in
  mkState (activeType s) (activeTag s)
    (mkPage pubs (controls (page s)) (pub_tag (page s))
       (option_map (set_textContent (countText (numVisible pubs))) (countEl s))
       (option_map (set_display (clearDisplay (activeType s) (activeTag s)))
          (clearBtn s))
       (filter_section (page s)))
    (scrolls s).

(** The state the clear listener leaves behind. *)
Definition cleared (s : State) : State :=
  displayed
    (mkState (Some "all") (Some "all")
       (with_controls (forEachSel isControl markAll (controls (page s))) (page s))
       (scrolls s)).

(** The state [s] with another selection and other controls; entries,
    pills, optional elements and scroll count are those of [s]. *)
Definition reselect (T G : value) (cs : list Element) (s : State) : State :=
  mkState T G (with_controls cs (page s)) (scrolls s).

(** The elements after the listener of the [i]-th one matching [sel] has
    moved the mark. *)
Definition clickSel (sel : Element -> bool) (i : nat) (l : list Element)
  : list Element :=
  update_sel sel i (classList_add "active")
    (forEachSel sel (classList_remove "active") l).

(** The same on the list of the matching elements themselves. *)
Definition clickMarks (i : nat) (btns : list Element) : list Element :=
  update_nth i (classList_add "active") (map (classList_remove "active") btns).

(** The state [s] with another scroll count. *)
Definition atScroll (n : nat) (s : State) : State :=
  mkState (activeType s) (activeTag s) (page s) n.

(** The display agrees with the selection: updateDisplay would change
    nothing. *)
Definition inSync (s : State) : Prop := displayed s = s.

(** The boolean test of the loop of updateDisplay. *)
Definition shows (T G : value) (e : Element) : bool :=
  typeMatch T e && tagMatch G e.

(** ** The active marks *)

(** Exactly one control of [btns] carries the active mark, and its [attr]
    attribute is the selection [sel]. *)
Definition oneActive (attr : string) (sel : value) (btns : list Element) : bool :=
  match filter isActive btns with
  | [b] => strict_eq (getAttribute b attr) sel
  | _ => false
  end.

Definition marksMatch (s : State) : bool :=
  oneActive "data-type" (activeType s) (type_btn (page s))
  && oneActive "data-tag" (activeTag s) (tag_btn (page s)).

(** The test of the clear listener: the control is an "all" control. *)
Definition allish (b : Element) : bool :=
  strict_eq (getAttribute b "data-type") (Some "all")
  || strict_eq (getAttribute b "data-tag") (Some "all").

(** The test of the pill listener: the control carries the tag. *)
Definition carries (tag : value) (b : Element) : bool :=
  strict_eq (getAttribute b "data-tag") tag.

(** Exactly one control of [btns] is an "all" control, and its [attr]
    attribute is "all". *)
Definition uniqueAll (attr : string) (btns : list Element) : bool :=
  match filter allish btns with
  | [b] => strict_eq (getAttribute b attr) (Some "all")
  | _ => false
  end.

(** Exactly one control of [btns] carries the pill's tag. *)
Definition pillCovered (btns : list Element) (pill : Element) : bool :=
  (length (filter (carries (getAttribute pill "data-tag")) btns) =? 1)%nat.

(** No element is both a type control and a tag control. *)
Definition noDual (l : list Element) : bool :=
  forallb (fun b => negb (isTypeBtn b && isTagBtn b)) l.

(** One "all" control of each kind, and one tag control for the tag of
    every pill. *)
Definition coversSelections (p : Page) : bool :=
  uniqueAll "data-type" (type_btn p)
  && uniqueAll "data-tag" (tag_btn p)
  && forallb (pillCovered (tag_btn p)) (pub_tag p).

(** The markup the marks rely on: no control of both kinds, one "all"
    control of each kind, and one tag control for the tag of every pill. *)
Definition pageOk (p : Page) : bool :=
  noDual (controls p) && coversSelections p.

Definition wellMarked (s : State) : Prop :=
  pageOk (page s) = true /\ marksMatch s = true.

(** ** Elements with the same markup *)

(** Two lists of elements with the same attributes, position by position. *)
Definition sameAttrs (l l' : list Element) : Prop :=
  map attributes l = map attributes l'.

Definition keepsAttrs (g : Element -> Element) : Prop :=
  forall x, attributes (g x) = attributes x.

Definition readsAttrs (f : Element -> bool) : Prop :=
  forall a b, attributes a = attributes b -> f a = f b.

(** [g] changes neither control class of an element. *)
Definition keepsKind (g : Element -> Element) : Prop :=
  forall x, isTypeBtn (g x) = isTypeBtn x /\ isTagBtn (g x) = isTagBtn x.

(** ** Pages without an optional element *)

(** The same state on a page without the count label, and on a page
    without the clear control. *)
Definition withoutCount (s : State) : State :=
  mkState (activeType s) (activeTag s) (with_pub_count None (page s)) (scrolls s).

Definition withoutClear (s : State) : State :=
  mkState (activeType s) (activeTag s) (with_clear_filters None (page s)) (scrolls s).

Definition cmap {A B} (f : A -> B) (c : completion A) : completion B :=
  x <- c ;; Normal (f x).

(** ** Tag tokens *)

(** The tag tokens of a data-tags string, as the spec reads it: the pieces
    between occurrences of the delimiter [d]. *)
Fixpoint tokens (d : ascii) (s : string) : list string :=
  match s with
  | EmptyString => [EmptyString]
  | String c s' =>
      if Ascii.eqb c d then EmptyString :: tokens d s'
      else match tokens d s' with
           | t :: ts => String c t :: ts
           | [] => [String c EmptyString]
           end
  end.

Definition comma : ascii := ","%char.

(** ** What the script never writes *)

Definition notActive (c : string) : bool := negb (String.eqb "active" c).

(** Of an entry: everything but its inline display. *)
Definition entryMarkup (e : Element) : list (string * string) * list string * string :=
  (attributes e, classList e, textContent e).

(** Of a type or tag control: everything but its active mark. *)
Definition controlMarkup (b : Element)
  : list (string * string) * list string * string * string :=
  (attributes b, filter notActive (classList b), style_display b, textContent b).

(** Of the count label: everything but its text. *)
Definition labelMarkup (c : Element) : list (string * string) * list string * string :=
  (attributes c, classList c, style_display c).

(** Of the clear control: everything but its inline display. *)
Definition clearMarkup (c : Element) : list (string * string) * list string * string :=
  (attributes c, classList c, textContent c).

Record Markup : Type := mkMarkup {
  m_entries : list (list (string * string) * list string * string);
  m_types : list (list (string * string) * list string * string * string);
  m_tags : list (list (string * string) * list string * string * string);
  m_controls : list (list (string * string) * list string * string * string);
  m_pills : list Element;
  m_count : option (list (string * string) * list string * string);
  m_clear : option (list (string * string) * list string * string);
  m_section : option Element
}.

Definition markup (p : Page) : Markup :=
  mkMarkup (map entryMarkup (pub_entry p))
           (map controlMarkup (type_btn p))
           (map controlMarkup (tag_btn p))
           (map controlMarkup (controls p))
           (pub_tag p)
           (option_map labelMarkup (pub_count p))
           (option_map clearMarkup (clear_filters p))
           (filter_section p).

(** ** The two states of an abstract toggle *)

(** The control [c] and its block [a] once toggleAbstract has shown the
    block, and once it has hidden it. *)
Definition opened (c a : Element) : Toggle :=
  mkToggle (set_textContent "Abstract ▲" c) (Some (set_display "block" a)).

Definition shut (c a : Element) : Toggle :=
  mkToggle (set_textContent "Abstract ▼" c) (Some (set_display "none" a)).

(** ** Sample pages *)

Module Sample.

Definition entry (type tags : string) : Element :=
  mkElement [("data-type", type); ("data-tags", tags)] ["pub-entry"] "" "".

Definition typeBtn (type : string) (classes : list string) : Element :=
  mkElement [("data-type", type)] ("type-btn" :: classes) "" type.

Definition tagBtn (tag : string) (classes : list string) : Element :=
  mkElement [("data-tag", tag)] ("tag-btn" :: classes) "" tag.

(** A control carrying both classes. *)
Definition dualBtn (type tag : string) (classes : list string) : Element :=
  mkElement [("data-type", type); ("data-tag", tag)]
            ("type-btn" :: "tag-btn" :: classes) "" type.

Definition pill (tag : string) : Element :=
  mkElement [("data-tag", tag)] ["pub-tag"] "" tag.

Definition plain : Element := mkElement [] [] "" "".

Definition research : Page :=
  mkPage
    [entry "paper" "ai,policy"; entry "article" "policy"; entry "paper" "tiktok"]
    [typeBtn "all" ["active"]; typeBtn "paper" []; typeBtn "article" [];
     tagBtn "all" ["active"]; tagBtn "ai" []; tagBtn "policy" []; tagBtn "tiktok" []]
    [pill "ai"; pill "policy"; pill "policy"; pill "tiktok"]
    (Some plain) (Some plain) (Some plain).

Definition loaded : State := displayed (mkState (Some "all") (Some "all") research 0).

Definition countOf (s : State) : option string := option_map textContent (countEl s).
Definition clearOf (s : State) : option string := option_map style_display (clearBtn s).

Definition summary (c : completion State) : option (nat * option string * option string) :=
  match c with
  | Normal s => Some (numVisible (allPubs s), countOf s, clearOf s)
  | TypeError => None
  end.

End Sample.

Module Sparse.

(** A page whose "tiktok" pill has no tag control. *)
Definition research : Page :=
  mkPage
    [Sample.entry "paper" "policy"; Sample.entry "paper" "tiktok"]
    [Sample.typeBtn "all" ["active"]; Sample.typeBtn "paper" [];
     Sample.tagBtn "all" ["active"]; Sample.tagBtn "policy" []]
    [Sample.pill "policy"; Sample.pill "tiktok"]
    (Some Sample.plain) (Some Sample.plain) (Some Sample.plain).

End Sparse.

Module Unmarked.

(** A page whose markup marks no control at load. *)
Definition research : Page :=
  mkPage
    [Sample.entry "paper" "policy"]
    [Sample.typeBtn "all" []; Sample.typeBtn "paper" [];
     Sample.tagBtn "all" []; Sample.tagBtn "policy" []]
    [Sample.pill "policy"]
    (Some Sample.plain) (Some Sample.plain) (Some Sample.plain).

End Unmarked.

Module TwoAll.

(** A page with two tag controls for "all". *)
Definition research : Page :=
  mkPage
    [Sample.entry "paper" "policy"]
    [Sample.typeBtn "all" ["active"]; Sample.typeBtn "paper" [];
     Sample.tagBtn "all" ["active"]; Sample.tagBtn "policy" []; Sample.tagBtn "all" []]
    [Sample.pill "policy"]
    (Some Sample.plain) (Some Sample.plain) (Some Sample.plain).

End TwoAll.

Module Dual.

(** A page with a control that is both a type control (for "paper") and a
    tag control (for "ai"). *)
Definition research : Page :=
  mkPage
    [Sample.entry "paper" "ai"; Sample.entry "article" "policy"]
    [Sample.typeBtn "all" ["active"]; Sample.dualBtn "paper" "ai" [];
     Sample.tagBtn "all" ["active"]; Sample.tagBtn "policy" []]
    [Sample.pill "ai"; Sample.pill "policy"]
    (Some Sample.plain) (Some Sample.plain) (Some Sample.plain).

(** The state once the type listener of that control has run. *)
Definition paperSelected : State :=
  displayed
    (reselect (Some "paper") (Some "all")
       (clickSel isTypeBtn 1 (controls research))
       (mkState (Some "all") (Some "all") research 0)).

End Dual.

Module Abstract.

Definition button (label : string) : Element :=
  mkElement [("onclick", "toggleAbstract(this)")] ["abstract-toggle"] "" label.

Definition block (display : string) : Element :=
  mkElement [] ["pub-abstract"] display "".

(** The control as the page first shows it: the block has no inline
    display and the style sheet hides it. *)
Definition fresh : Toggle :=
  mkToggle (button "Abstract ▼") (Some (block "")).

Definition closed : Toggle :=
  mkToggle (button "Abstract ▼") (Some (block "none")).

End Abstract.

Module Air.

(** An entry tagged "air" and "policy". *)
Definition entry : Element := Sample.entry "paper" "air,policy".

End Air.

(** * Proofs *)
(** ** Strings *)

Section Strings.

Lemma strict_eq_iff (a b : value) : strict_eq a b = true <-> a = b.
Proof.
  destruct a as [x|], b as [y|]; simpl; try (split; congruence).
  rewrite String.eqb_eq. split; congruence.
Qed.

Lemma strict_eq_false_iff (a b : value) : strict_eq a b = false <-> a <> b.
Proof.
  rewrite <- strict_eq_iff. destruct (strict_eq a b); split; congruence.
Qed.

Lemma or_else_empty (v : value) :
  or_else v "" = match v with Some t => t | None => "" end.
Proof.
  destruct v as [t|]; simpl; [|reflexivity].
  destruct (String.eqb_spec t ""); congruence.
Qed.

Lemma startsWith_iff (s g : string) :
  startsWith s g = true <-> exists post, s = g ++ post.
Proof.
  revert s. induction g as [|c g IH]; intros s; simpl.
  - split; [intros _; now exists s | reflexivity].
  - destruct s as [|d s].
    + split; [discriminate | intros [post H]; discriminate].
    + rewrite andb_true_iff, Ascii.eqb_eq, IH. split.
      * intros [-> [post ->]]. now exists post.
      * intros [post H]. injection H as -> ->. split; [reflexivity | now exists post].
Qed.

Lemma occurs_empty (g : string) : occurs g "" <-> g = "".
Proof.
  split.
  - intros [pre [post H]]. destruct pre; [|discriminate].
    destruct g; [reflexivity | discriminate].
  - intros ->. now exists "", "".
Qed.

Lemma occurs_cons (g : string) (c : ascii) (s : string) :
  occurs g (String c s) <-> startsWith (String c s) g = true \/ occurs g s.
Proof.
  rewrite startsWith_iff. split.
  - intros [pre [post H]]. destruct pre as [|d pre]; simpl in H.
    + left. now exists post.
    + right. injection H as _ ->. now exists pre, post.
  - intros [[post H] | [pre [post H]]].
    + exists "", post. exact H.
    + exists (String c pre), post. simpl. now rewrite H.
Qed.

Lemma indexOf_from_found (s g : string) (k : Z) :
  (0 <= k)%Z -> ((indexOf_from s g k <> -1)%Z <-> occurs g s).
Proof.
  revert k. induction s as [|c s IH]; intros k Hk.
  - simpl. rewrite occurs_empty. destruct g; simpl.
    + split; [reflexivity | lia].
    + split; [congruence | discriminate].
  - rewrite occurs_cons. cbn [indexOf_from].
    destruct (startsWith (String c s) g) eqn:E.
    + split; [now left | lia].
    + rewrite IH by lia. split; [now right | intros [H|H]; [discriminate | exact H]].
Qed.

(** The test [pubTags.indexOf(activeTag) !== -1] is substring containment
    of [ToString(activeTag)]. *)
Lemma indexOf_occurs (s : string) (v : value) :
  negb (indexOf s v =? -1)%Z = true <-> occurs (ToString v) s.
Proof.
  unfold indexOf. rewrite negb_true_iff, Z.eqb_neq.
  apply indexOf_from_found. lia.
Qed.

Lemma typeMatch_iff (T : value) (e : Element) :
  typeMatch T e = true <-> T = Some "all" \/ getAttribute e "data-type" = T.
Proof.
  unfold typeMatch. now rewrite orb_true_iff, !strict_eq_iff.
Qed.

Lemma tagMatch_iff (G : value) (e : Element) :
  tagMatch G e = true <-> G = Some "all" \/ occurs (ToString G) (dataTags e).
Proof.
  unfold tagMatch, dataTags.
  now rewrite orb_true_iff, strict_eq_iff, indexOf_occurs, or_else_empty.
Qed.

Lemma selected_iff (T G : value) (e : Element) :
  typeMatch T e && tagMatch G e = true <-> selected T G e.
Proof.
  unfold selected. now rewrite andb_true_iff, typeMatch_iff, tagMatch_iff.
Qed.

End Strings.

(** ** updateDisplay, in closed form *)

Section UpdateDisplay.

Lemma showOne_attributes T G e : attributes (showOne T G e) = attributes e.
Proof. unfold showOne, showPub. now destruct (typeMatch T e && tagMatch G e). Qed.

Lemma showOne_getAttribute T G e n :
  getAttribute (showOne T G e) n = getAttribute e n.
Proof. unfold getAttribute. now rewrite showOne_attributes. Qed.

Lemma showOne_display T G e :
  style_display (showOne T G e)
  = if typeMatch T e && tagMatch G e then "" else "none".
Proof. unfold showOne, showPub. now destruct (typeMatch T e && tagMatch G e). Qed.

Lemma showOne_visible T G e :
  isVisible (showOne T G e) = typeMatch T e && tagMatch G e.
Proof.
  unfold isVisible. rewrite showOne_display.
  now destruct (typeMatch T e && tagMatch G e).
Qed.

Lemma showPub_eq T G e v :
  showPub T G e v
  = (showOne T G e, if isVisible (showOne T G e) then S v else v).
Proof.
  rewrite showOne_visible. unfold showOne, showPub.
  now destruct (typeMatch T e && tagMatch G e).
Qed.

(** The loop rewrites every entry and leaves in [visible] the number of
    entries it has shown. *)
Lemma forEachPub_eq T G pubs v :
  forEachPub T G pubs v
  = (map (showOne T G) pubs, v + numVisible (map (showOne T G) pubs)).
Proof.
  revert v. induction pubs as [|e pubs IH]; intros v; simpl.
  - now rewrite Nat.add_0_r.
  - rewrite showPub_eq, IH. unfold numVisible. simpl.
    destruct (isVisible (showOne T G e)); simpl; f_equal; lia.
Qed.

(** [updateDisplay] always returns, with that state. *)
Lemma updateDisplay_displayed (s : State) :
  updateDisplay s = Normal (displayed s).
Proof.
  unfold updateDisplay, displayed. rewrite forEachPub_eq. simpl.
  unfold countEl, clearBtn.
  destruct (pub_count (page s)), (clear_filters (page s)); reflexivity.
Qed.

Lemma countText_label (n : nat) : countText n = countLabel n.
Proof.
  unfold countText, countLabel.
  destruct (n =? 1)%nat; reflexivity.
Qed.

Lemma clearDisplay_shown (T G : value) :
  clearDisplay T G = "inline-block" <-> T <> Some "all" \/ G <> Some "all".
Proof.
  unfold clearDisplay. rewrite <- !strict_eq_false_iff.
  destruct (strict_eq T (Some "all")), (strict_eq G (Some "all")); simpl;
    split; try discriminate; intuition congruence.
Qed.

Lemma clearDisplay_hidden (T G : value) :
  clearDisplay T G = "none" <-> T = Some "all" /\ G = Some "all".
Proof.
  unfold clearDisplay. rewrite <- !strict_eq_iff.
  destruct (strict_eq T (Some "all")), (strict_eq G (Some "all")); simpl;
    split; try discriminate; intuition congruence.
Qed.

End UpdateDisplay.

(** ** The filter *)

(** The three-entry scenario: selecting type "paper", then tag "tiktok",
    then clearing. *)
Example scenario :
  Sample.summary (s <- init Sample.research ;; run [ClickType 1] s)
    = Some (2, Some "2 publications", Some "inline-block")
  /\ Sample.summary (s <- init Sample.research ;; run [ClickType 1; ClickTag 3] s)
    = Some (1, Some "1 publication", Some "inline-block")
  /\ Sample.summary (s <- init Sample.research ;; run [ClickType 1; ClickTag 3; ClickClear] s)
    = Some (3, Some "3 publications", Some "none").
Proof. repeat split; vm_compute; reflexivity. Qed.

(** C1.  After updateDisplay, an entry is visible exactly when the active
    type is "all" or equals its data-type, and the active tag is "all" or
    occurs as a substring of its data-tags string.  The entry keeps its
    attributes and the selection is unchanged. *)
Theorem updateDisplay_visible_iff (s : State) (i : nat) (E : Element) :
  nth_error (allPubs s) i = Some E ->
  exists s' E',
    updateDisplay s = Normal s'
    /\ activeType s' = activeType s /\ activeTag s' = activeTag s
    /\ nth_error (allPubs s') i = Some E'
    /\ attributes E' = attributes E
    /\ (isVisible E' = true <-> selected (activeType s) (activeTag s) E).
Proof.
  intros HE.
  exists (displayed s), (showOne (activeType s) (activeTag s) E).
  split; [apply updateDisplay_displayed|].
  split; [reflexivity|]. split; [reflexivity|].
  split; [unfold allPubs in *; simpl; now apply map_nth_error|].
  split; [apply showOne_attributes|].
  rewrite showOne_visible. apply selected_iff.
Qed.

Lemma updateDisplay_visible_iff_witness :
  exists s' E',
    updateDisplay Sample.loaded = Normal s'
    /\ activeType s' = activeType Sample.loaded
    /\ activeTag s' = activeTag Sample.loaded
    /\ nth_error (allPubs s') 0 = Some E'
    /\ attributes E' = attributes (Sample.entry "paper" "ai,policy")
    /\ (isVisible E' = true
        <-> selected (activeType Sample.loaded) (activeTag Sample.loaded)
              (Sample.entry "paper" "ai,policy")).
Proof.
  apply (updateDisplay_visible_iff Sample.loaded 0 (Sample.entry "paper" "ai,policy")).
  reflexivity.
Defined.

(** C2.  After updateDisplay, when the count label exists, its text is the
    number n of visible entries followed by " publication" when n is 1 and
    by " publications" otherwise. *)
Theorem updateDisplay_count_label (s : State) (c : Element) :
  countEl s = Some c ->
  exists s' c',
    updateDisplay s = Normal s'
    /\ countEl s' = Some c'
    /\ textContent c' = countLabel (numVisible (allPubs s')).
Proof.
  intros Hc.
  exists (displayed s),
    (set_textContent
       (countText (numVisible (map (showOne (activeType s) (activeTag s)) (allPubs s)))) c).
  split; [apply updateDisplay_displayed|].
  unfold displayed, countEl, allPubs in *. simpl. rewrite Hc. simpl.
  split; [reflexivity | apply countText_label].
Qed.

Lemma updateDisplay_count_label_witness :
  exists s' c',
    updateDisplay Sample.loaded = Normal s'
    /\ countEl s' = Some c'
    /\ textContent c' = countLabel (numVisible (allPubs s')).
Proof.
  apply (updateDisplay_count_label Sample.loaded
           (set_textContent "3 publications" Sample.plain)).
  reflexivity.
Defined.

(** C3.  After updateDisplay, when the clear control exists, it is shown
    (display "inline-block") exactly when the active type or the active tag
    is not "all", and hidden (display "none") otherwise. *)
Theorem updateDisplay_clear_control (s : State) (b : Element) :
  clearBtn s = Some b ->
  exists s' b',
    updateDisplay s = Normal s'
    /\ clearBtn s' = Some b'
    /\ (style_display b' = "inline-block"
        <-> activeType s' <> Some "all" \/ activeTag s' <> Some "all")
    /\ (style_display b' = "none"
        <-> activeType s' = Some "all" /\ activeTag s' = Some "all").
Proof.
  intros Hb.
  exists (displayed s), (set_display (clearDisplay (activeType s) (activeTag s)) b).
  split; [apply updateDisplay_displayed|].
  unfold displayed, clearBtn in *. simpl. rewrite Hb. simpl.
  split; [reflexivity|].
  split; [apply clearDisplay_shown | apply clearDisplay_hidden].
Qed.

Lemma updateDisplay_clear_control_witness :
  exists s' b',
    updateDisplay Sample.loaded = Normal s'
    /\ clearBtn s' = Some b'
    /\ (style_display b' = "inline-block"
        <-> activeType s' <> Some "all" \/ activeTag s' <> Some "all")
    /\ (style_display b' = "none"
        <-> activeType s' = Some "all" /\ activeTag s' = Some "all").
Proof.
  apply (updateDisplay_clear_control Sample.loaded (set_display "none" Sample.plain)).
  reflexivity.
Defined.


(** ** Queries by class *)

Section Selectors.

Variables (sel sel' : Element -> bool) (f g : Element -> Element).

Lemma length_forEachSel (l : list Element) : length (forEachSel sel f l) = length l.
Proof. apply length_map. Qed.

Lemma length_update_sel i (l : list Element) : length (update_sel sel i f l) = length l.
Proof.
  revert i. induction l as [|x l IH]; intros i; cbn [update_sel length]; [reflexivity|].
  destruct (sel x); [destruct i|]; cbn [length]; now rewrite ?IH.
Qed.

(** The elements a query returns, once [f] has run on the elements matching
    a selector that covers the query's. *)
Lemma filter_forEachSel_sub (l : list Element) :
  (forall x, sel x = true -> sel' x = true) ->
  (forall x, sel (f x) = sel x) ->
  filter sel (forEachSel sel' f l) = map f (filter sel l).
Proof.
  intros Hsub Hf. unfold forEachSel.
  induction l as [|x l IH]; cbn [map filter]; [reflexivity|].
  destruct (sel x) eqn:Ex.
  - rewrite (Hsub x Ex), Hf, Ex. cbn [map]. now rewrite IH.
  - destruct (sel' x); rewrite ?Hf, Ex; exact IH.
Qed.

(** The elements a query returns are not touched through a selector that
    none of them matches. *)
Lemma filter_forEachSel_apart (l : list Element) :
  Forall (fun x => sel x = true -> sel' x = false) l ->
  (forall x, sel (f x) = sel x) ->
  filter sel (forEachSel sel' f l) = filter sel l.
Proof.
  intros Hd Hf. unfold forEachSel.
  induction Hd as [|x l Hx Hd IH]; cbn [map filter]; [reflexivity|].
  destruct (sel x) eqn:Ex.
  - rewrite (Hx eq_refl), Ex. now rewrite IH.
  - destruct (sel' x); rewrite ?Hf, Ex; exact IH.
Qed.

Lemma filter_update_sel_apart i (l : list Element) :
  Forall (fun x => sel x = true -> sel' x = false) l ->
  (forall x, sel (f x) = sel x) ->
  filter sel (update_sel sel' i f l) = filter sel l.
Proof.
  intros Hd Hf. revert i.
  induction Hd as [|x l Hx Hd IH]; intros i; cbn [update_sel filter]; [reflexivity|].
  destruct (sel' x) eqn:Ex'.
  - assert (sel x = false) as Ex.
    { destruct (sel x); [|reflexivity]. specialize (Hx eq_refl). discriminate. }
    destruct i; cbn [filter]; rewrite ?Hf, Ex; [reflexivity | apply IH].
  - cbn [filter]. destruct (sel x); now rewrite IH.
Qed.

(** An element that does not match the selector stays as it is. *)
Lemma nth_error_forEachSel_other (l : list Element) k b :
  nth_error l k = Some b -> sel b = false ->
  nth_error (forEachSel sel f l) k = Some b.
Proof.
  intros H Hb. unfold forEachSel.
  rewrite (map_nth_error _ _ _ H). now rewrite Hb.
Qed.

Lemma nth_error_update_sel_other i (l : list Element) k b :
  nth_error l k = Some b -> sel b = false ->
  nth_error (update_sel sel i f l) k = Some b.
Proof.
  revert i k. induction l as [|x l IH]; intros i [|k] H Hb; try discriminate;
    cbn [nth_error] in H; cbn [update_sel].
  - injection H as ->. now rewrite Hb.
  - destruct (sel x); [destruct i|]; cbn [nth_error]; try exact H; now apply IH.
Qed.

End Selectors.

Section SelectorsSame.

Variables (sel : Element -> bool) (f g : Element -> Element).

Lemma filter_forEachSel_same (l : list Element) :
  (forall x, sel (f x) = sel x) ->
  filter sel (forEachSel sel f l) = map f (filter sel l).
Proof. intros Hf. now apply filter_forEachSel_sub. Qed.

Lemma filter_update_sel_same i (l : list Element) :
  (forall x, sel (f x) = sel x) ->
  filter sel (update_sel sel i f l) = update_nth i f (filter sel l).
Proof.
  intros Hf. revert i.
  induction l as [|x l IH]; intros i; cbn [update_sel filter]; [now destruct i|].
  destruct (sel x) eqn:Ex.
  - destruct i; cbn [filter update_nth]; rewrite ?Hf, Ex; cbn [update_nth];
      [reflexivity | now rewrite IH].
  - cbn [filter]. rewrite Ex. apply IH.
Qed.

(** A later pass over a wider selector overwrites an earlier pass. *)
Lemma forEachSel_absorbs (sel2 : Element -> bool) (l : list Element) :
  (forall x, sel x = true -> sel2 x = true) ->
  (forall x, sel2 (g x) = sel2 x) ->
  (forall x, f (g x) = f x) ->
  forEachSel sel2 f (forEachSel sel g l) = forEachSel sel2 f l.
Proof.
  intros Hsub Hk Hfg. unfold forEachSel. rewrite map_map. apply map_ext.
  intros x. destruct (sel x) eqn:Ex; [|reflexivity].
  now rewrite Hk, (Hsub x Ex), Hfg.
Qed.

Lemma forEachSel_update_absorbs (sel2 : Element -> bool) i (l : list Element) :
  (forall x, sel x = true -> sel2 x = true) ->
  (forall x, sel2 (g x) = sel2 x) ->
  (forall x, f (g x) = f x) ->
  forEachSel sel2 f (update_sel sel i g l) = forEachSel sel2 f l.
Proof.
  intros Hsub Hk Hfg. unfold forEachSel. revert i.
  induction l as [|x l IH]; intros i; cbn [update_sel map]; [reflexivity|].
  destruct (sel x) eqn:Ex.
  - destruct i; cbn [map]; [now rewrite Hk, (Hsub x Ex), Hfg | now rewrite IH].
  - cbn [map]. now rewrite IH.
Qed.

End SelectorsSame.

(** ** Class tokens other than "active" *)

Section Classes.

Lemma contains_remove_other (t u : string) (e : Element) :
  String.eqb t u = false ->
  classList_contains (classList_remove u e) t = classList_contains e t.
Proof.
  intros H. unfold classList_contains, classList_remove. cbn [classList].
  induction (classList e) as [|c l IH]; cbn [filter existsb]; [reflexivity|].
  destruct (String.eqb u c) eqn:E; cbn [negb existsb].
  - apply String.eqb_eq in E. subst c. now rewrite H, IH.
  - now rewrite IH.
Qed.

Lemma contains_add_other (t u : string) (e : Element) :
  String.eqb t u = false ->
  classList_contains (classList_add u e) t = classList_contains e t.
Proof.
  intros H. unfold classList_add.
  destruct (classList_contains e u); unfold classList_contains; cbn [classList];
    [reflexivity|].
  rewrite existsb_app. cbn [existsb]. rewrite H. now rewrite !orb_false_r.
Qed.

Lemma isTypeBtn_remove b : isTypeBtn (classList_remove "active" b) = isTypeBtn b.
Proof. now apply contains_remove_other. Qed.

Lemma isTypeBtn_add b : isTypeBtn (classList_add "active" b) = isTypeBtn b.
Proof. now apply contains_add_other. Qed.

Lemma isTagBtn_remove b : isTagBtn (classList_remove "active" b) = isTagBtn b.
Proof. now apply contains_remove_other. Qed.

Lemma isTagBtn_add b : isTagBtn (classList_add "active" b) = isTagBtn b.
Proof. now apply contains_add_other. Qed.

Lemma keepsKind_remove : keepsKind (classList_remove "active").
Proof. intros x. split; [apply isTypeBtn_remove | apply isTagBtn_remove]. Qed.

Lemma keepsKind_add : keepsKind (classList_add "active").
Proof. intros x. split; [apply isTypeBtn_add | apply isTagBtn_add]. Qed.

Lemma keepsKind_markTag tag : keepsKind (markTag tag).
Proof.
  intros x. unfold markTag. destruct (strict_eq _ tag).
  - destruct (keepsKind_add (classList_remove "active" x)) as [-> ->].
    apply keepsKind_remove.
  - apply keepsKind_remove.
Qed.

Lemma keepsKind_markAll : keepsKind markAll.
Proof.
  intros x. unfold markAll.
  destruct (strict_eq _ (Some "all") || strict_eq _ (Some "all")).
  - destruct (keepsKind_add (classList_remove "active" x)) as [-> ->].
    apply keepsKind_remove.
  - apply keepsKind_remove.
Qed.

Lemma keepsKind_type g x : keepsKind g -> isTypeBtn (g x) = isTypeBtn x.
Proof. intros H. apply H. Qed.

Lemma keepsKind_tag g x : keepsKind g -> isTagBtn (g x) = isTagBtn x.
Proof. intros H. apply H. Qed.

Lemma keepsKind_control g x : keepsKind g -> isControl (g x) = isControl x.
Proof. intros H. unfold isControl. now destruct (H x) as [-> ->]. Qed.

Lemma isTypeBtn_isControl x : isTypeBtn x = true -> isControl x = true.
Proof. unfold isControl. now intros ->. Qed.

Lemma isTagBtn_isControl x : isTagBtn x = true -> isControl x = true.
Proof. unfold isControl. intros ->. apply orb_true_r. Qed.

End Classes.
(** ** Clearing the filters *)

Section Clear.

Lemma filter_idem {A} (f : A -> bool) (l : list A) :
  filter f (filter f l) = filter f l.
Proof.
  induction l as [|c l IH]; cbn [filter]; [reflexivity|].
  destruct (f c) eqn:E; cbn [filter]; [|exact IH].
  now rewrite E, IH.
Qed.

Lemma removed_not_contained (t : string) (e : Element) :
  classList_contains (classList_remove t e) t = false.
Proof.
  unfold classList_contains, classList_remove. cbn [classList].
  induction (classList e) as [|c l IH]; cbn [filter existsb]; [reflexivity|].
  destruct (String.eqb t c) eqn:E; cbn [negb filter existsb]; [exact IH|].
  now rewrite E, IH.
Qed.

Lemma remove_remove (t : string) (e : Element) :
  classList_remove t (classList_remove t e) = classList_remove t e.
Proof.
  unfold classList_remove. cbn [attributes classList style_display textContent].
  f_equal. apply filter_idem.
Qed.

Lemma remove_add_remove (t : string) (e : Element) :
  classList_remove t (classList_add t (classList_remove t e))
  = classList_remove t e.
Proof.
  unfold classList_add. rewrite removed_not_contained.
  unfold classList_remove. cbn [attributes classList style_display textContent].
  f_equal. rewrite filter_app, filter_idem. cbn [filter].
  rewrite String.eqb_refl. cbn [negb]. apply app_nil_r.
Qed.

Lemma markAll_idempotent (b : Element) : markAll (markAll b) = markAll b.
Proof.
  unfold markAll.
  set (allish := fun x : Element =>
                   strict_eq (getAttribute x "data-type") (Some "all")
                   || strict_eq (getAttribute x "data-tag") (Some "all")).
  change (getAttribute (classList_remove "active" b)) with (getAttribute b).
  fold (allish b).
  destruct (allish b) eqn:E.
  - rewrite remove_add_remove.
    change (getAttribute (classList_remove "active" b)) with (getAttribute b).
    fold (allish b). now rewrite E.
  - rewrite remove_remove.
    change (getAttribute (classList_remove "active" b)) with (getAttribute b).
    fold (allish b). now rewrite E.
Qed.

Lemma showOne_all (e : Element) :
  showOne (Some "all") (Some "all") e = set_display "" e.
Proof. reflexivity. Qed.

Lemma clearFilters_cleared (s : State) : clearFilters s = Normal (cleared s).
Proof. unfold clearFilters. apply updateDisplay_displayed. Qed.

Lemma showAll_idempotent (l : list Element) :
  map (showOne (Some "all") (Some "all")) (map (showOne (Some "all") (Some "all")) l)
  = map (showOne (Some "all") (Some "all")) l.
Proof. rewrite map_map. apply map_ext. intros e. now rewrite !showOne_all. Qed.

Lemma isControl_markAll x : isControl (markAll x) = isControl x.
Proof. apply keepsKind_control, keepsKind_markAll. Qed.

Lemma markAll_controls_idempotent (l : list Element) :
  forEachSel isControl markAll (forEachSel isControl markAll l)
  = forEachSel isControl markAll l.
Proof.
  apply forEachSel_absorbs;
    [trivial | apply isControl_markAll | apply markAll_idempotent].
Qed.

Lemma cleared_idempotent (s : State) : cleared (cleared s) = cleared s.
Proof.
  unfold cleared, displayed, allPubs, countEl, clearBtn.
  cbn [activeType activeTag page scrolls pub_entry controls pub_tag
       pub_count clear_filters filter_section with_controls].
  rewrite showAll_idempotent, markAll_controls_idempotent.
  now destruct (pub_count (page s)), (clear_filters (page s)).
Qed.

End Clear.

(** C4.  The clear listener is idempotent: run on the state it has just
    produced, it returns that very state (selection, entries, controls and
    their marks, count label, clear control).  In that state both
    selections are "all", every entry of the starting state is still there
    and visible, the count label, when there is one, shows the number of
    entries, and the clear control, when there is one, is hidden.  The same
    holds for clicks on the clear control. *)
Theorem clearFilters_idempotent (s : State) :
  exists s1,
    clearFilters s = Normal s1
    /\ clearFilters s1 = Normal s1
    /\ activeType s1 = Some "all" /\ activeTag s1 = Some "all"
    /\ length (allPubs s1) = length (allPubs s)
    /\ (forall i E, nth_error (allPubs s) i = Some E ->
          exists E', nth_error (allPubs s1) i = Some E'
                     /\ attributes E' = attributes E
                     /\ style_display E' = "" /\ isVisible E' = true)
    /\ Forall (fun e => style_display e = "" /\ isVisible e = true) (allPubs s1)
    /\ (forall c, countEl s = Some c ->
          exists c', countEl s1 = Some c'
                     /\ textContent c' = countLabel (length (allPubs s)))
    /\ (forall b, clearBtn s = Some b ->
          exists b', clearBtn s1 = Some b'
                     /\ attributes b' = attributes b
                     /\ style_display b' = "none")
    /\ (forall b, clearBtn s1 = Some b -> style_display b = "none")
    /\ run [ClickClear; ClickClear] s = run [ClickClear] s.
Proof.
  exists (cleared s).
  split; [apply clearFilters_cleared|].
  split; [rewrite clearFilters_cleared; now rewrite cleared_idempotent|].
  split; [reflexivity|]. split; [reflexivity|].
  assert (numVisible (map (showOne (Some "all") (Some "all")) (pub_entry (page s)))
          = length (pub_entry (page s))) as Hn.
  { unfold numVisible. induction (pub_entry (page s)) as [|e l IH]; [reflexivity|].
    cbn [map filter]. rewrite showOne_visible.
    change (typeMatch (Some "all") e && tagMatch (Some "all") e) with true.
    cbn [length]. now rewrite IH. }
  unfold allPubs, countEl, clearBtn.
  cbn [cleared displayed page pub_entry pub_count clear_filters with_controls].
  unfold allPubs, countEl, clearBtn.
  cbn [page pub_entry pub_count clear_filters with_controls activeType activeTag].
  split; [apply length_map|].
  split.
  { intros i E HE. exists (showOne (Some "all") (Some "all") E).
    split; [now apply map_nth_error|]. now rewrite showOne_all. }
  split.
  { apply Forall_forall. intros e He. apply in_map_iff in He.
    destruct He as [e0 [<- _]]. now rewrite showOne_all. }
  split.
  { intros c Hc. rewrite Hc. cbn [option_map]. eexists. split; [reflexivity|].
    cbn [set_textContent textContent]. rewrite Hn. apply countText_label. }
  split.
  { intros b Hb. rewrite Hb. cbn [option_map]. eexists. split; [reflexivity|].
    now split. }
  split.
  { intros b Hb. destruct (clear_filters (page s)); [|discriminate].
    cbn [option_map] in Hb. now injection Hb as <-. }
  cbn [run dispatch]. destruct (truthy (clearBtn s)) eqn:E; cbn [bind].
  - rewrite clearFilters_cleared. cbn [bind].
    assert (truthy (clearBtn (cleared s)) = true) as ->.
    { unfold clearBtn in *. cbn [cleared displayed page clear_filters with_controls].
      unfold clearBtn. cbn [page clear_filters with_controls].
      now destruct (clear_filters (page s)). }
    now rewrite clearFilters_cleared, cleared_idempotent.
  - now rewrite E.
Qed.

(** C5, as the claim states it, fails: when a control is both a type
    control and a tag control, the pill listener, which unmarks every tag
    control, takes the mark off that type control. *)
Lemma pill_click_unmarks_dual_control :
  (s0 <- init Dual.research ;; run [ClickType 1] s0) = Normal Dual.paperSelected
  /\ exists s',
      pubTag_click (Sample.pill "policy") Dual.paperSelected = Normal s'
      /\ activeType s' = Some "paper"
      /\ activeTag s' = Some "policy"
      /\ map isActive (type_btn (page Dual.paperSelected)) = [false; true]
      /\ map isActive (type_btn (page s')) = [false; false]
      /\ type_btn (page s') <> type_btn (page Dual.paperSelected).
Proof.
  split; [vm_compute; reflexivity|].
  eexists. split; [vm_compute; reflexivity|].
  split; [reflexivity|]. split; [reflexivity|].
  split; [vm_compute; reflexivity|]. split; [vm_compute; reflexivity|].
  intros H. apply (f_equal (map isActive)) in H. vm_compute in H. discriminate.
Qed.

Lemma noDual_type_apart (l : list Element) :
  noDual l = true -> Forall (fun x => isTypeBtn x = true -> isTagBtn x = false) l.
Proof.
  unfold noDual. rewrite forallb_forall. intros H. apply Forall_forall.
  intros x Hx Ht. specialize (H x Hx). rewrite Ht in H.
  now destruct (isTagBtn x).
Qed.

Lemma noDual_tag_apart (l : list Element) :
  noDual l = true -> Forall (fun x => isTagBtn x = true -> isTypeBtn x = false) l.
Proof.
  unfold noDual. rewrite forallb_forall. intros H. apply Forall_forall.
  intros x Hx Ht. specialize (H x Hx). rewrite Ht in H.
  now destruct (isTypeBtn x).
Qed.

(** C5, amended.  The listener of a tag pill sets the active tag to the
    pill's data-tag and leaves the active type as it was; it leaves every
    control that is not a tag control as it was, so that the type controls
    and their marks are unchanged when no control is both a type control
    and a tag control. *)
Theorem pubTag_click_frame (pill : Element) (s : State) :
  exists s',
    pubTag_click pill s = Normal s'
    /\ activeTag s' = getAttribute pill "data-tag"
    /\ activeType s' = activeType s
    /\ length (controls (page s')) = length (controls (page s))
    /\ (forall k b, nth_error (controls (page s)) k = Some b ->
          isTagBtn b = false ->
          nth_error (controls (page s')) k = Some b)
    /\ (noDual (controls (page s)) = true ->
        type_btn (page s') = type_btn (page s)).
Proof.
  unfold pubTag_click. rewrite updateDisplay_displayed. cbn [bind].
  assert (forall x : State, exists s',
             (if truthy (filter_section (page x))
              then Normal (mkState (activeType x) (activeTag x) (page x) (S (scrolls x)))
              else Normal x) = Normal s'
             /\ activeTag s' = activeTag x /\ activeType s' = activeType x
             /\ page s' = page x) as Hscroll.
  { intros x. destruct (truthy (filter_section (page x))); eexists; now repeat split. }
  destruct (Hscroll (displayed
                       (mkState (activeType s) (getAttribute pill "data-tag")
                          (with_controls
                             (forEachSel isTagBtn (markTag (getAttribute pill "data-tag"))
                                (controls (page s))) (page s)) (scrolls s))))
    as [s' [Hs' [HG [HT Hp]]]].
  exists s'. split; [exact Hs'|].
  split; [rewrite HG; reflexivity|]. split; [rewrite HT; reflexivity|].
  unfold type_btn. rewrite Hp. cbn [displayed page controls with_controls].
  split; [apply length_forEachSel|]. split.
  - intros k b Hb Hn. now apply nth_error_forEachSel_other.
  - intros Hd. apply filter_forEachSel_apart;
      [now apply noDual_type_apart | intros x; apply keepsKind_markTag].
Qed.
(** ** The active marks *)

Section Marks.

Lemma isActive_remove (b : Element) :
  isActive (classList_remove "active" b) = false.
Proof. apply removed_not_contained. Qed.

Lemma contains_add (t : string) (b : Element) :
  classList_contains (classList_add t b) t = true.
Proof.
  unfold classList_add.
  destruct (classList_contains b t) eqn:E; unfold classList_contains in *;
    cbn [classList]; [exact E|].
  rewrite existsb_app. cbn [existsb]. rewrite String.eqb_refl.
  now rewrite orb_true_r.
Qed.

Lemma isActive_add (b : Element) : isActive (classList_add "active" b) = true.
Proof. apply contains_add. Qed.

Lemma getAttribute_remove t b n :
  getAttribute (classList_remove t b) n = getAttribute b n.
Proof. reflexivity. Qed.

Lemma getAttribute_add t b n :
  getAttribute (classList_add t b) n = getAttribute b n.
Proof. reflexivity. Qed.

Lemma none_active_after_remove (btns : list Element) :
  filter isActive (map (classList_remove "active") btns) = [].
Proof.
  induction btns as [|b btns IH]; cbn [map filter]; [reflexivity|].
  now rewrite isActive_remove.
Qed.

(** After a control's own listener has run, that control alone is marked. *)
Lemma clicked_alone_active (btns : list Element) (i : nat) (btn : Element) :
  nth_error btns i = Some btn ->
  filter isActive
    (update_nth i (classList_add "active") (map (classList_remove "active") btns))
  = [classList_add "active" (classList_remove "active" btn)].
Proof.
  revert i. induction btns as [|b btns IH]; intros i H.
  - destruct i; discriminate.
  - destruct i as [|i]; cbn [map update_nth filter].
    + injection H as ->. rewrite isActive_add. f_equal.
      apply none_active_after_remove.
    + rewrite isActive_remove. now apply IH.
Qed.

Lemma oneActive_clicked attr (btns : list Element) (i : nat) (btn : Element) :
  nth_error btns i = Some btn ->
  oneActive attr (getAttribute btn attr)
    (update_nth i (classList_add "active") (map (classList_remove "active") btns))
  = true.
Proof.
  intros H. unfold oneActive. rewrite (clicked_alone_active _ _ _ H).
  rewrite getAttribute_add, getAttribute_remove. now apply strict_eq_iff.
Qed.

Lemma isActive_markTag tag b : isActive (markTag tag b) = carries tag b.
Proof.
  unfold markTag, carries. rewrite getAttribute_remove.
  destruct (strict_eq (getAttribute b "data-tag") tag);
    [apply isActive_add | apply isActive_remove].
Qed.

Lemma isActive_markAll b : isActive (markAll b) = allish b.
Proof.
  unfold markAll, allish. rewrite !getAttribute_remove.
  destruct (strict_eq (getAttribute b "data-type") (Some "all")
            || strict_eq (getAttribute b "data-tag") (Some "all"));
    [apply isActive_add | apply isActive_remove].
Qed.

Lemma getAttribute_markTag tag b n : getAttribute (markTag tag b) n = getAttribute b n.
Proof.
  unfold markTag. now destruct (strict_eq (getAttribute _ "data-tag") tag).
Qed.

Lemma getAttribute_markAll b n : getAttribute (markAll b) n = getAttribute b n.
Proof.
  unfold markAll.
  now destruct (strict_eq (getAttribute _ "data-type") (Some "all")
                || strict_eq (getAttribute _ "data-tag") (Some "all")).
Qed.

Lemma filter_map_commute {A} (f h : A -> bool) (g : A -> A) (l : list A) :
  (forall x, f (g x) = h x) ->
  filter f (map g l) = map g (filter h l).
Proof.
  intros H. induction l as [|x l IH]; cbn [map filter]; [reflexivity|].
  rewrite H, IH. now destruct (h x).
Qed.

(** After a pill's listener, the marked tag controls are those carrying
    the pill's tag. *)
Lemma marked_after_pill tag (btns : list Element) :
  filter isActive (map (markTag tag) btns)
  = map (markTag tag) (filter (carries tag) btns).
Proof. apply filter_map_commute, isActive_markTag. Qed.

(** After the clear listener, the marked controls are the "all" controls. *)
Lemma marked_after_clear (btns : list Element) :
  filter isActive (map markAll btns) = map markAll (filter allish btns).
Proof. apply filter_map_commute, isActive_markAll. Qed.

End Marks.

(** ** The markup is never rewritten *)

Section Markup.

Lemma getAttribute_same a b n :
  attributes a = attributes b -> getAttribute a n = getAttribute b n.
Proof. unfold getAttribute. now intros ->. Qed.

Lemma sameAttrs_map g l : keepsAttrs g -> sameAttrs (map g l) l.
Proof.
  intros Hg. unfold sameAttrs. rewrite map_map. apply map_ext, Hg.
Qed.

Lemma sameAttrs_update_nth g i l : keepsAttrs g -> sameAttrs (update_nth i g l) l.
Proof.
  intros Hg. unfold sameAttrs. revert i.
  induction l as [|x l IH]; intros i; [now destruct i|].
  destruct i as [|i]; cbn [update_nth map]; [now rewrite Hg|].
  now rewrite IH.
Qed.

Lemma sameAttrs_trans l1 l2 l3 :
  sameAttrs l1 l2 -> sameAttrs l2 l3 -> sameAttrs l1 l3.
Proof. unfold sameAttrs. congruence. Qed.

Lemma sameAttrs_filter f l l' :
  readsAttrs f -> sameAttrs l l' -> sameAttrs (filter f l) (filter f l').
Proof.
  intros Hf. unfold sameAttrs. revert l'.
  induction l as [|x l IH]; intros [|y l'] H; try discriminate; [reflexivity|].
  cbn [map] in H. injection H as Hxy H.
  cbn [filter]. rewrite (Hf x y Hxy).
  destruct (f y); cbn [map]; [f_equal; [exact Hxy|]|]; now apply IH.
Qed.

Lemma keepsAttrs_remove t : keepsAttrs (classList_remove t).
Proof. now intros x. Qed.

Lemma keepsAttrs_add t : keepsAttrs (classList_add t).
Proof. now intros x. Qed.

Lemma keepsAttrs_markTag tag : keepsAttrs (markTag tag).
Proof.
  intros x. unfold markTag.
  now destruct (strict_eq (getAttribute _ "data-tag") tag).
Qed.

Lemma keepsAttrs_markAll : keepsAttrs markAll.
Proof.
  intros x. unfold markAll.
  now destruct (strict_eq (getAttribute _ "data-type") (Some "all")
                || strict_eq (getAttribute _ "data-tag") (Some "all")).
Qed.

Lemma readsAttrs_allish : readsAttrs allish.
Proof.
  intros a b H. unfold allish. now rewrite !(getAttribute_same a b _ H).
Qed.

Lemma readsAttrs_carries tag : readsAttrs (carries tag).
Proof.
  intros a b H. unfold carries. now rewrite (getAttribute_same a b _ H).
Qed.

Lemma uniqueAll_same attr l l' :
  sameAttrs l l' -> uniqueAll attr l = uniqueAll attr l'.
Proof.
  intros H. apply (sameAttrs_filter allish _ _ readsAttrs_allish) in H.
  unfold uniqueAll, sameAttrs in *.
  destruct (filter allish l) as [|a [|? ?]], (filter allish l') as [|b [|? ?]];
    try discriminate; try reflexivity.
  cbn [map] in H. injection H as H. now rewrite (getAttribute_same a b _ H).
Qed.

Lemma pillCovered_same l l' pill :
  sameAttrs l l' -> pillCovered l pill = pillCovered l' pill.
Proof.
  intros H.
  apply (sameAttrs_filter (carries (getAttribute pill "data-tag")) _ _
           (readsAttrs_carries _)) in H.
  unfold pillCovered. apply (f_equal (@length _)) in H.
  rewrite !length_map in H. now rewrite H.
Qed.

Lemma coversSelections_same (p p' : Page) :
  sameAttrs (type_btn p') (type_btn p) ->
  sameAttrs (tag_btn p') (tag_btn p) ->
  pub_tag p' = pub_tag p ->
  coversSelections p' = coversSelections p.
Proof.
  intros Hty Htg Hpl. unfold coversSelections.
  rewrite (uniqueAll_same _ _ _ Hty), (uniqueAll_same _ _ _ Htg), Hpl.
  assert (forallb (pillCovered (tag_btn p')) (pub_tag p)
          = forallb (pillCovered (tag_btn p)) (pub_tag p)) as ->; [|reflexivity].
  clear Hpl. induction (pub_tag p) as [|pill pills IH]; cbn [forallb]; [reflexivity|].
  now rewrite IH, (pillCovered_same _ _ pill Htg).
Qed.

End Markup.


(** ** What a query returns after a listener *)

Section Views.

Lemma noDual_forEachSel sel f (l : list Element) :
  keepsKind f -> noDual (forEachSel sel f l) = noDual l.
Proof.
  intros Hf. unfold noDual, forEachSel.
  induction l as [|x l IH]; cbn [map forallb]; [reflexivity|].
  rewrite IH. destruct (sel x); [|reflexivity].
  now destruct (Hf x) as [-> ->].
Qed.

Lemma noDual_update_sel sel i f (l : list Element) :
  keepsKind f -> noDual (update_sel sel i f l) = noDual l.
Proof.
  intros Hf. unfold noDual. revert i.
  induction l as [|x l IH]; intros i; cbn [update_sel forallb]; [reflexivity|].
  destruct (sel x); [destruct i|]; cbn [forallb]; rewrite ?IH; try reflexivity.
  now destruct (Hf x) as [-> ->].
Qed.

Lemma noDual_clickSel sel i (l : list Element) : noDual (clickSel sel i l) = noDual l.
Proof.
  unfold clickSel.
  now rewrite (noDual_update_sel _ _ _ _ keepsKind_add),
    (noDual_forEachSel _ _ _ keepsKind_remove).
Qed.

(** The type controls after the listener of the [i]-th of them. *)
Lemma type_btn_clickSel i (l : list Element) :
  filter isTypeBtn (clickSel isTypeBtn i l) = clickMarks i (filter isTypeBtn l).
Proof.
  unfold clickSel, clickMarks.
  rewrite (filter_update_sel_same _ _ _ _ isTypeBtn_add).
  now rewrite (filter_forEachSel_same _ _ _ isTypeBtn_remove).
Qed.

Lemma tag_btn_clickSel i (l : list Element) :
  filter isTagBtn (clickSel isTagBtn i l) = clickMarks i (filter isTagBtn l).
Proof.
  unfold clickSel, clickMarks.
  rewrite (filter_update_sel_same _ _ _ _ isTagBtn_add).
  now rewrite (filter_forEachSel_same _ _ _ isTagBtn_remove).
Qed.

(** Where no control is of both kinds, the listener of a control of one
    kind leaves the controls of the other kind alone. *)
Lemma tag_btn_clickSel_type i (l : list Element) :
  noDual l = true ->
  filter isTagBtn (clickSel isTypeBtn i l) = filter isTagBtn l.
Proof.
  intros Hd. unfold clickSel.
  rewrite filter_update_sel_apart;
    [| apply noDual_tag_apart;
       now rewrite (noDual_forEachSel _ _ _ keepsKind_remove)
     | apply isTagBtn_add].
  apply filter_forEachSel_apart;
    [now apply noDual_tag_apart | apply isTagBtn_remove].
Qed.

Lemma type_btn_clickSel_tag i (l : list Element) :
  noDual l = true ->
  filter isTypeBtn (clickSel isTagBtn i l) = filter isTypeBtn l.
Proof.
  intros Hd. unfold clickSel.
  rewrite filter_update_sel_apart;
    [| apply noDual_type_apart;
       now rewrite (noDual_forEachSel _ _ _ keepsKind_remove)
     | apply isTypeBtn_add].
  apply filter_forEachSel_apart;
    [now apply noDual_type_apart | apply isTypeBtn_remove].
Qed.

Lemma tag_btn_markTag tag (l : list Element) :
  filter isTagBtn (forEachSel isTagBtn (markTag tag) l)
  = map (markTag tag) (filter isTagBtn l).
Proof.
  apply filter_forEachSel_same. intros x. apply keepsKind_markTag.
Qed.

Lemma type_btn_markTag tag (l : list Element) :
  noDual l = true ->
  filter isTypeBtn (forEachSel isTagBtn (markTag tag) l) = filter isTypeBtn l.
Proof.
  intros Hd. apply filter_forEachSel_apart;
    [now apply noDual_type_apart | intros x; apply keepsKind_markTag].
Qed.

Lemma type_btn_markAll (l : list Element) :
  filter isTypeBtn (forEachSel isControl markAll l) = map markAll (filter isTypeBtn l).
Proof.
  apply filter_forEachSel_sub;
    [apply isTypeBtn_isControl | intros x; apply keepsKind_markAll].
Qed.

Lemma tag_btn_markAll (l : list Element) :
  filter isTagBtn (forEachSel isControl markAll l) = map markAll (filter isTagBtn l).
Proof.
  apply filter_forEachSel_sub;
    [apply isTagBtn_isControl | intros x; apply keepsKind_markAll].
Qed.

End Views.

(** ** The marks follow the selection *)

Section Invariant.

Lemma init_displayed (p : Page) :
  init p = Normal (displayed (mkState (Some "all") (Some "all") p 0)).
Proof.
  unfold init, clearBtn. cbn [page].
  destruct (clear_filters p); cbn [truthy addEventListener bind];
    apply updateDisplay_displayed.
Qed.

Lemma typeBtn_click_closed i s btn :
  nth_error (type_btn (page s)) i = Some btn ->
  typeBtn_click i s
  = Normal (displayed (reselect (getAttribute btn "data-type") (activeTag s)
                         (clickSel isTypeBtn i (controls (page s))) s)).
Proof.
  intros H. unfold typeBtn_click. rewrite H. apply updateDisplay_displayed.
Qed.

Lemma tagBtn_click_closed i s btn :
  nth_error (tag_btn (page s)) i = Some btn ->
  tagBtn_click i s
  = Normal (displayed (reselect (activeType s) (getAttribute btn "data-tag")
                         (clickSel isTagBtn i (controls (page s))) s)).
Proof.
  intros H. unfold tagBtn_click. rewrite H. apply updateDisplay_displayed.
Qed.

Lemma typeBtn_click_none i s :
  nth_error (type_btn (page s)) i = None -> typeBtn_click i s = Normal s.
Proof. intros H. unfold typeBtn_click. now rewrite H. Qed.

Lemma tagBtn_click_none i s :
  nth_error (tag_btn (page s)) i = None -> tagBtn_click i s = Normal s.
Proof. intros H. unfold tagBtn_click. now rewrite H. Qed.

Lemma pubTag_click_closed pill s :
  pubTag_click pill s
  = Normal (atScroll (if truthy (filter_section (page s))
                      then S (scrolls s) else scrolls s)
              (displayed (reselect (activeType s) (getAttribute pill "data-tag")
                            (forEachSel isTagBtn (markTag (getAttribute pill "data-tag"))
                               (controls (page s))) s))).
Proof.
  unfold pubTag_click. rewrite updateDisplay_displayed. cbn [bind].
  destruct s as [T G [pe cs pl c b [f|]] n]; reflexivity.
Qed.

Lemma cleared_reselect s :
  cleared s
  = displayed (reselect (Some "all") (Some "all")
                 (forEachSel isControl markAll (controls (page s))) s).
Proof. reflexivity. Qed.

(** The views of a state in which only selection and controls were set. *)
Lemma type_btn_displayed_reselect T G cs s :
  type_btn (page (displayed (reselect T G cs s))) = filter isTypeBtn cs.
Proof. reflexivity. Qed.

Lemma tag_btn_displayed_reselect T G cs s :
  tag_btn (page (displayed (reselect T G cs s))) = filter isTagBtn cs.
Proof. reflexivity. Qed.

Lemma oneActive_pill tag (btns : list Element) :
  (length (filter (carries tag) btns) =? 1)%nat = true ->
  oneActive "data-tag" tag (map (markTag tag) btns) = true.
Proof.
  intros H. apply Nat.eqb_eq in H.
  unfold oneActive. rewrite marked_after_pill.
  destruct (filter (carries tag) btns) as [|b [|? ?]] eqn:E; try discriminate.
  cbn [map]. rewrite getAttribute_markTag.
  assert (In b (filter (carries tag) btns)) as Hb by (rewrite E; now left).
  apply filter_In in Hb. exact (proj2 Hb).
Qed.

Lemma oneActive_clear attr (btns : list Element) :
  uniqueAll attr btns = true ->
  oneActive attr (Some "all") (map markAll btns) = true.
Proof.
  unfold uniqueAll, oneActive. rewrite marked_after_clear.
  destruct (filter allish btns) as [|b [|? ?]]; try discriminate.
  cbn [map]. now rewrite getAttribute_markAll.
Qed.

Lemma pageOk_parts (p : Page) :
  pageOk p = true ->
  noDual (controls p) = true
  /\ uniqueAll "data-type" (type_btn p) = true
  /\ uniqueAll "data-tag" (tag_btn p) = true
  /\ forall pill, In pill (pub_tag p) -> pillCovered (tag_btn p) pill = true.
Proof.
  unfold pageOk, coversSelections. rewrite !andb_true_iff, forallb_forall. tauto.
Qed.

Lemma sameAttrs_clicked i l : sameAttrs (clickMarks i l) l.
Proof.
  unfold clickMarks. eapply sameAttrs_trans;
    [apply sameAttrs_update_nth, keepsAttrs_add
    | apply sameAttrs_map, keepsAttrs_remove].
Qed.

(** The page conditions speak of the markup only, which a state with other
    marks shares. *)
Lemma pageOk_reselect T G cs s :
  noDual cs = noDual (controls (page s)) ->
  sameAttrs (filter isTypeBtn cs) (type_btn (page s)) ->
  sameAttrs (filter isTagBtn cs) (tag_btn (page s)) ->
  pageOk (page (displayed (reselect T G cs s))) = pageOk (page s).
Proof.
  intros Hd Hty Htg. unfold pageOk.
  cbn [displayed reselect page controls with_controls]. rewrite Hd. f_equal.
  now apply coversSelections_same.
Qed.

Lemma sameAttrs_refl l : sameAttrs l l.
Proof. reflexivity. Qed.

Lemma typeBtn_click_wellMarked i s :
  wellMarked s -> exists s', typeBtn_click i s = Normal s' /\ wellMarked s'.
Proof.
  intros [Hp Hm].
  destruct (nth_error (type_btn (page s)) i) as [btn|] eqn:E;
    [|exists s; rewrite (typeBtn_click_none _ _ E); now repeat split].
  rewrite (typeBtn_click_closed _ _ _ E). eexists. split; [reflexivity|].
  pose proof (pageOk_parts _ Hp) as [Hd _].
  split.
  - transitivity (pageOk (page s)); [|exact Hp]. apply pageOk_reselect.
    + apply noDual_clickSel.
    + rewrite type_btn_clickSel. apply sameAttrs_clicked.
    + rewrite (tag_btn_clickSel_type _ _ Hd). apply sameAttrs_refl.
  - unfold marksMatch in *. apply andb_true_iff in Hm. destruct Hm as [_ Hm].
    rewrite type_btn_displayed_reselect, tag_btn_displayed_reselect.
    rewrite type_btn_clickSel, (tag_btn_clickSel_type _ _ Hd).
    cbn [displayed reselect activeType activeTag].
    unfold clickMarks. rewrite (oneActive_clicked _ _ _ _ E). exact Hm.
Qed.

Lemma tagBtn_click_wellMarked i s :
  wellMarked s -> exists s', tagBtn_click i s = Normal s' /\ wellMarked s'.
Proof.
  intros [Hp Hm].
  destruct (nth_error (tag_btn (page s)) i) as [btn|] eqn:E;
    [|exists s; rewrite (tagBtn_click_none _ _ E); now repeat split].
  rewrite (tagBtn_click_closed _ _ _ E). eexists. split; [reflexivity|].
  pose proof (pageOk_parts _ Hp) as [Hd _].
  split.
  - transitivity (pageOk (page s)); [|exact Hp]. apply pageOk_reselect.
    + apply noDual_clickSel.
    + rewrite (type_btn_clickSel_tag _ _ Hd). apply sameAttrs_refl.
    + rewrite tag_btn_clickSel. apply sameAttrs_clicked.
  - unfold marksMatch in *. apply andb_true_iff in Hm. destruct Hm as [Hm _].
    rewrite type_btn_displayed_reselect, tag_btn_displayed_reselect.
    rewrite tag_btn_clickSel, (type_btn_clickSel_tag _ _ Hd).
    cbn [displayed reselect activeType activeTag].
    unfold clickMarks. rewrite (oneActive_clicked _ _ _ _ E).
    unfold type_btn in Hm. now rewrite Hm.
Qed.

Lemma wellMarked_atScroll n s : wellMarked s -> wellMarked (atScroll n s).
Proof. intros H. exact H. Qed.

Lemma pubTag_click_wellMarked pill s :
  In pill (pub_tag (page s)) ->
  wellMarked s -> exists s', pubTag_click pill s = Normal s' /\ wellMarked s'.
Proof.
  intros Hin [Hp Hm]. rewrite pubTag_click_closed. eexists. split; [reflexivity|].
  apply wellMarked_atScroll.
  pose proof (pageOk_parts _ Hp) as [Hd [_ [_ Hcov]]].
  split.
  - transitivity (pageOk (page s)); [|exact Hp]. apply pageOk_reselect.
    + apply noDual_forEachSel, keepsKind_markTag.
    + rewrite (type_btn_markTag _ _ Hd). apply sameAttrs_refl.
    + rewrite tag_btn_markTag. apply sameAttrs_map, keepsAttrs_markTag.
  - unfold marksMatch in *. apply andb_true_iff in Hm. destruct Hm as [Hm _].
    rewrite type_btn_displayed_reselect, tag_btn_displayed_reselect.
    rewrite tag_btn_markTag, (type_btn_markTag _ _ Hd).
    cbn [displayed reselect activeType activeTag].
    unfold type_btn in Hm. rewrite Hm. cbn [andb]. apply oneActive_pill.
    now apply Hcov.
Qed.

Lemma clearFilters_wellMarked s :
  wellMarked s -> exists s', clearFilters s = Normal s' /\ wellMarked s'.
Proof.
  intros [Hp Hm]. rewrite clearFilters_cleared, cleared_reselect.
  eexists. split; [reflexivity|].
  pose proof (pageOk_parts _ Hp) as [Hd [Hty [Htg _]]].
  split.
  - transitivity (pageOk (page s)); [|exact Hp]. apply pageOk_reselect.
    + apply noDual_forEachSel, keepsKind_markAll.
    + rewrite type_btn_markAll. apply sameAttrs_map, keepsAttrs_markAll.
    + rewrite tag_btn_markAll. apply sameAttrs_map, keepsAttrs_markAll.
  - unfold marksMatch.
    rewrite type_btn_displayed_reselect, tag_btn_displayed_reselect.
    rewrite type_btn_markAll, tag_btn_markAll.
    cbn [displayed reselect activeType activeTag].
    unfold type_btn, tag_btn in Hty, Htg.
    now rewrite (oneActive_clear _ _ Hty), (oneActive_clear _ _ Htg).
Qed.

Lemma dispatch_wellMarked ev s :
  wellMarked s -> exists s', dispatch ev s = Normal s' /\ wellMarked s'.
Proof.
  intros H. destruct ev as [i|i|i|]; cbn [dispatch].
  - now apply typeBtn_click_wellMarked.
  - now apply tagBtn_click_wellMarked.
  - destruct (nth_error (pub_tag (page s)) i) as [pill|] eqn:E;
      [|now exists s].
    apply pubTag_click_wellMarked; [|exact H]. eapply nth_error_In, E.
  - destruct (truthy (clearBtn s)); [|now exists s].
    now apply clearFilters_wellMarked.
Qed.

Lemma run_wellMarked evs s :
  wellMarked s -> exists s', run evs s = Normal s' /\ wellMarked s'.
Proof.
  revert s. induction evs as [|ev evs IH]; intros s H; cbn [run].
  - now exists s.
  - destruct (dispatch_wellMarked ev s H) as [s1 [-> H1]]. cbn [bind].
    now apply IH.
Qed.

End Invariant.

(** C6, as the claim states it, fails: on a page whose marks are right at
    load, a click on a pill whose tag has no tag control leaves no tag
    control marked. *)
Lemma pill_without_control_unmarks :
  marksMatch (mkState (Some "all") (Some "all") Sparse.research 0) = true
  /\ exists s,
      (s0 <- init Sparse.research ;; run [ClickPill 1] s0) = Normal s
      /\ activeTag s = Some "tiktok"
      /\ filter isActive (tag_btn (page s)) = []
      /\ marksMatch s = false.
Proof.
  split; [reflexivity|].
  eexists. split; [vm_compute; reflexivity|]. now vm_compute.
Qed.

(** The other conditions of the amended claim are needed as well: the
    script sets no mark at load, the clear listener marks every "all"
    control, and a control of both kinds is unmarked by the listeners of
    either kind. *)
Example unmarked_at_load_stays_unmarked :
  pageOk Unmarked.research = true
  /\ exists s,
      (s0 <- init Unmarked.research ;; run [ClickType 1] s0) = Normal s
      /\ filter isActive (tag_btn (page s)) = []
      /\ marksMatch s = false.
Proof.
  split; [reflexivity|].
  eexists. split; [vm_compute; reflexivity|]. now vm_compute.
Qed.

Example clear_marks_every_all_control :
  marksMatch (mkState (Some "all") (Some "all") TwoAll.research 0) = true
  /\ exists s,
      (s0 <- init TwoAll.research ;; run [ClickClear] s0) = Normal s
      /\ length (filter isActive (tag_btn (page s))) = 2
      /\ marksMatch s = false.
Proof.
  split; [reflexivity|].
  eexists. split; [vm_compute; reflexivity|]. now vm_compute.
Qed.

Example dual_control_loses_type_mark :
  coversSelections Dual.research = true
  /\ marksMatch (mkState (Some "all") (Some "all") Dual.research 0) = true
  /\ exists s,
      (s0 <- init Dual.research ;; run [ClickType 1; ClickTag 0; ClickPill 1] s0)
      = Normal s
      /\ activeType s = Some "paper"
      /\ filter isActive (type_btn (page s)) = []
      /\ marksMatch s = false.
Proof.
  split; [reflexivity|]. split; [reflexivity|].
  eexists. split; [vm_compute; reflexivity|]. now vm_compute.
Qed.

(** C6, amended.  On a page where no control is both a type control and a
    tag control, that has exactly one "all" control of each kind and
    exactly one tag control for the tag of every pill, and whose marks
    match the selection ("all", "all") at load, after every finite sequence
    of clicks on type controls, tag controls, pills and the clear control
    exactly one type control and exactly one tag control are marked active,
    and their data-type and data-tag are the active type and the active
    tag. *)
Theorem active_marks_invariant (p : Page) (evs : list Event) :
  pageOk p = true ->
  marksMatch (mkState (Some "all") (Some "all") p 0) = true ->
  exists s,
    (s0 <- init p ;; run evs s0) = Normal s
    /\ marksMatch s = true.
Proof.
  intros Hp Hm. rewrite init_displayed. cbn [bind].
  destruct (run_wellMarked evs (displayed (mkState (Some "all") (Some "all") p 0)))
    as [s [Hrun [_ Hs]]].
  - split; [exact Hp | exact Hm].
  - now exists s.
Qed.

Lemma active_marks_invariant_witness :
  exists s,
    (s0 <- init Sample.research ;;
     run [ClickType 1; ClickPill 3; ClickTag 2; ClickClear; ClickPill 0] s0) = Normal s
    /\ marksMatch s = true.
Proof.
  apply (active_marks_invariant Sample.research
           [ClickType 1; ClickPill 3; ClickTag 2; ClickClear; ClickPill 0]);
    reflexivity.
Defined.
(** ** The abstract toggle *)

Lemma set_display_same (d : string) (a : Element) :
  set_display d a = a <-> style_display a = d.
Proof.
  destruct a as [at_ cl d0 tx]. unfold set_display. cbn. split; congruence.
Qed.

Lemma set_textContent_same (t : string) (a : Element) :
  set_textContent t a = a <-> textContent a = t.
Proof.
  destruct a as [at_ cl d0 tx]. unfold set_textContent. cbn. split; congruence.
Qed.

(** toggleAbstract returns normally when the control has a next sibling and
    throws when it has none; it reads and writes nothing of the filter. *)
Remark toggleAbstract_needs_sibling (c a : Element) :
  (exists t, toggleAbstract (mkToggle c (Some a)) = Normal t)
  /\ toggleAbstract (mkToggle c None) = TypeError.
Proof.
  split; [|reflexivity].
  unfold toggleAbstract. cbn [nextElementSibling read_display bind].
  destruct (String.eqb (style_display a) "none" || String.eqb (style_display a) "");
    now eexists.
Qed.

(** C7, as the claim states it, fails: toggled twice from the state in which
    the block has no inline display, the block ends with display "none",
    not with the display it had. *)
Lemma toggleAbstract_twice_changes_display :
  exists t1 t2,
    toggleAbstract Abstract.fresh = Normal t1
    /\ toggleAbstract t1 = Normal t2
    /\ option_map style_display (nextElementSibling Abstract.fresh) = Some ""
    /\ option_map style_display (nextElementSibling t1) = Some "block"
    /\ option_map style_display (nextElementSibling t2) = Some "none"
    /\ t2 <> Abstract.fresh.
Proof.
  eexists. eexists. split; [reflexivity|]. split; [reflexivity|].
  repeat split. discriminate.
Qed.

(** C7, amended.  For every control whose adjacent block is hidden (inline
    display "none" or empty), toggleAbstract sets the block's display to
    "block" and the control's label to "Abstract ▲"; a second call sets the
    display to "none" and the label to "Abstract ▼".  That is the state
    before the first call exactly when the display was "none" and the label
    was "Abstract ▼" then. *)
Theorem toggleAbstract_round_trip (btn : Toggle) (a : Element) :
  nextElementSibling btn = Some a ->
  style_display a = "none" \/ style_display a = "" ->
  exists t1 t2,
    toggleAbstract btn = Normal t1
    /\ nextElementSibling t1 = Some (set_display "block" a)
    /\ control t1 = set_textContent "Abstract ▲" (control btn)
    /\ toggleAbstract t1 = Normal t2
    /\ nextElementSibling t2 = Some (set_display "none" a)
    /\ control t2 = set_textContent "Abstract ▼" (control btn)
    /\ (t2 = btn
        <-> style_display a = "none" /\ textContent (control btn) = "Abstract ▼").
Proof.
  intros Ha Hd. destruct btn as [c n]. cbn in Ha. subst n.
  exists (mkToggle (set_textContent "Abstract ▲" c) (Some (set_display "block" a))),
         (mkToggle (set_textContent "Abstract ▼" c) (Some (set_display "none" a))).
  split.
  { unfold toggleAbstract. cbn [nextElementSibling read_display bind control].
    destruct Hd as [-> | ->]; reflexivity. }
  split; [reflexivity|]. split; [reflexivity|].
  split; [reflexivity|]. split; [reflexivity|]. split; [reflexivity|].
  cbn [control]. split.
  - intros H. injection H as Hc Hn.
    apply set_display_same in Hn. apply set_textContent_same in Hc. now split.
  - intros [Hn Hc].
    apply set_display_same in Hn. apply set_textContent_same in Hc.
    now rewrite Hn, Hc.
Qed.

Lemma toggleAbstract_round_trip_witness :
  exists t1 t2,
    toggleAbstract Abstract.closed = Normal t1
    /\ nextElementSibling t1 = Some (set_display "block" (Abstract.block "none"))
    /\ control t1 = set_textContent "Abstract ▲" (control Abstract.closed)
    /\ toggleAbstract t1 = Normal t2
    /\ nextElementSibling t2 = Some (set_display "none" (Abstract.block "none"))
    /\ control t2 = set_textContent "Abstract ▼" (control Abstract.closed)
    /\ (t2 = Abstract.closed
        <-> style_display (Abstract.block "none") = "none"
            /\ textContent (control Abstract.closed) = "Abstract ▼").
Proof.
  apply (toggleAbstract_round_trip Abstract.closed (Abstract.block "none")).
  - reflexivity.
  - left. reflexivity.
Defined.

(** ** Optional elements *)

Section Optional.

Lemma withoutCount_absent (s : State) : countEl s = None -> withoutCount s = s.
Proof.
  destruct s as [T G [pe cs pl c b f] n]. unfold countEl. cbn. now intros ->.
Qed.

Lemma withoutClear_absent (s : State) : clearBtn s = None -> withoutClear s = s.
Proof.
  destruct s as [T G [pe cs pl c b f] n]. unfold clearBtn. cbn. now intros ->.
Qed.

(** Without their guards the two writes of updateDisplay would throw. *)
Remark unguarded_writes_throw (t : string) :
  write_textContent None t = TypeError /\ write_display None t = TypeError
  /\ addEventListener None = TypeError.
Proof. now repeat split. Qed.

Lemma typeBtn_click_total i s : exists s', typeBtn_click i s = Normal s'.
Proof.
  unfold typeBtn_click. destruct (nth_error (type_btn (page s)) i); [|now exists s].
  rewrite updateDisplay_displayed. now eexists.
Qed.

Lemma tagBtn_click_total i s : exists s', tagBtn_click i s = Normal s'.
Proof.
  unfold tagBtn_click. destruct (nth_error (tag_btn (page s)) i); [|now exists s].
  rewrite updateDisplay_displayed. now eexists.
Qed.

Lemma pubTag_click_total pill s : exists s', pubTag_click pill s = Normal s'.
Proof. rewrite pubTag_click_closed. now eexists. Qed.

Lemma dispatch_total ev s : exists s', dispatch ev s = Normal s'.
Proof.
  destruct ev as [i|i|i|]; cbn [dispatch].
  - apply typeBtn_click_total.
  - apply tagBtn_click_total.
  - destruct (nth_error (pub_tag (page s)) i); [apply pubTag_click_total | now exists s].
  - destruct (truthy (clearBtn s)); [|now exists s].
    rewrite clearFilters_cleared. now eexists.
Qed.

Lemma displayed_withoutCount s : displayed (withoutCount s) = withoutCount (displayed s).
Proof. reflexivity. Qed.

Lemma displayed_withoutClear s : displayed (withoutClear s) = withoutClear (displayed s).
Proof. reflexivity. Qed.

Lemma updateDisplay_withoutCount s :
  updateDisplay (withoutCount s) = cmap withoutCount (updateDisplay s).
Proof. now rewrite !updateDisplay_displayed. Qed.

Lemma updateDisplay_withoutClear s :
  updateDisplay (withoutClear s) = cmap withoutClear (updateDisplay s).
Proof. now rewrite !updateDisplay_displayed. Qed.

Lemma dispatch_withoutCount ev s :
  dispatch ev (withoutCount s) = cmap withoutCount (dispatch ev s).
Proof.
  destruct ev as [i|i|i|]; cbn [dispatch].
  - unfold typeBtn_click, type_btn. cbn [withoutCount page with_pub_count controls].
    destruct (nth_error (filter isTypeBtn (controls (page s))) i); [|reflexivity].
    now rewrite !updateDisplay_displayed.
  - unfold tagBtn_click, tag_btn. cbn [withoutCount page with_pub_count controls].
    destruct (nth_error (filter isTagBtn (controls (page s))) i); [|reflexivity].
    now rewrite !updateDisplay_displayed.
  - cbn [withoutCount page with_pub_count pub_tag].
    destruct (nth_error (pub_tag (page s)) i); [|reflexivity].
    rewrite !pubTag_click_closed. reflexivity.
  - unfold clearBtn. cbn [withoutCount page with_pub_count clear_filters].
    destruct (clear_filters (page s)); [|reflexivity].
    cbn [truthy]. now rewrite !clearFilters_cleared.
Qed.

Lemma dispatch_withoutClear ev s :
  dispatch ev (withoutClear s)
  = match ev with
    | ClickClear => Normal (withoutClear s)
    | _ => cmap withoutClear (dispatch ev s)
    end.
Proof.
  destruct ev as [i|i|i|]; cbn [dispatch].
  - unfold typeBtn_click, type_btn. cbn [withoutClear page with_clear_filters controls].
    destruct (nth_error (filter isTypeBtn (controls (page s))) i); [|reflexivity].
    now rewrite !updateDisplay_displayed.
  - unfold tagBtn_click, tag_btn. cbn [withoutClear page with_clear_filters controls].
    destruct (nth_error (filter isTagBtn (controls (page s))) i); [|reflexivity].
    now rewrite !updateDisplay_displayed.
  - cbn [withoutClear page with_clear_filters pub_tag].
    destruct (nth_error (pub_tag (page s)) i); [|reflexivity].
    rewrite !pubTag_click_closed. reflexivity.
  - reflexivity.
Qed.

End Optional.

(** C8.  Whether or not the page has a count label and a clear control,
    initialisation, updateDisplay and every click listener return normally.
    On a page without the count label each of them leaves the state it
    leaves with the label, less the label; on a page without the clear
    control each of them leaves the state it leaves with the control, less
    the control, and there is no clear listener to run. *)
Theorem optional_elements_tolerated (p : Page) (s : State) (ev : Event) :
  countEl (withoutCount s) = None
  /\ clearBtn (withoutClear s) = None
  /\ (exists s', init p = Normal s')
  /\ (exists s', updateDisplay s = Normal s')
  /\ (exists s', dispatch ev s = Normal s')
  /\ init (with_pub_count None p) = cmap withoutCount (init p)
  /\ updateDisplay (withoutCount s) = cmap withoutCount (updateDisplay s)
  /\ dispatch ev (withoutCount s) = cmap withoutCount (dispatch ev s)
  /\ init (with_clear_filters None p) = cmap withoutClear (init p)
  /\ updateDisplay (withoutClear s) = cmap withoutClear (updateDisplay s)
  /\ dispatch ev (withoutClear s)
     = match ev with
       | ClickClear => Normal (withoutClear s)
       | _ => cmap withoutClear (dispatch ev s)
       end.
Proof.
  split; [reflexivity|]. split; [reflexivity|].
  split; [rewrite init_displayed; now eexists|].
  split; [rewrite updateDisplay_displayed; now eexists|].
  split; [apply dispatch_total|].
  split; [now rewrite !init_displayed|].
  split; [apply updateDisplay_withoutCount|].
  split; [apply dispatch_withoutCount|].
  split; [now rewrite !init_displayed|].
  split; [apply updateDisplay_withoutClear|].
  apply dispatch_withoutClear.
Qed.

(** ** Tags: substrings, not tokens *)

Section Tokens.

Lemma tokens_nonempty d s : tokens d s <> [].
Proof.
  destruct s as [|c s]; cbn [tokens]; [discriminate|].
  destruct (Ascii.eqb c d); [discriminate|].
  destruct (tokens d s); discriminate.
Qed.

Lemma occurs_grow (c : ascii) (g s : string) : occurs g s -> occurs g (String c s).
Proof.
  intros [pre [post ->]]. now exists (String c pre), post.
Qed.

(** The first token is a prefix; every token occurs in the string. *)
Lemma tokens_occur d s :
  (exists t ts post, tokens d s = t :: ts /\ s = t ++ post)
  /\ forall t, In t (tokens d s) -> occurs t s.
Proof.
  induction s as [|c s [[t0 [ts0 [post0 [E0 P0]]]] IH]]; cbn [tokens].
  - split.
    + now exists "", [], "".
    + intros t [<- | []]. now exists "", "".
  - destruct (Ascii.eqb c d) eqn:Ec.
    + split.
      * now exists "", (tokens d s), (String c s).
      * intros t [<- | Ht]; [now exists "", (String c s)|].
        apply occurs_grow. now apply IH.
    + rewrite E0. split.
      * exists (String c t0), ts0, post0. split; [reflexivity|].
        cbn. now rewrite <- P0.
      * intros t [<- | Ht].
        -- exists "", post0. cbn. now rewrite <- P0.
        -- apply occurs_grow. apply IH. rewrite E0. now right.
Qed.

End Tokens.

(** C9.  The tag test is substring containment in the data-tags string: it
    holds for every tag token of the string, and it also holds for strings
    that are no token, such as "ai" in an entry tagged "air,policy". *)
Theorem tagMatch_substring_not_token :
  (forall (G : string) (e : Element),
      tagMatch (Some G) e = true <-> G = "all" \/ occurs G (dataTags e))
  /\ (forall (G : string) (e : Element),
        In G (tokens comma (dataTags e)) -> tagMatch (Some G) e = true)
  /\ exists (S G : string) (e : Element),
      dataTags e = S
      /\ tagMatch (Some G) e = true
      /\ ~ In G (tokens comma S).
Proof.
  split; [|split].
  - intros G e. rewrite tagMatch_iff. cbn [ToString].
    split; (intros [H|H]; [left; congruence | now right]).
  - intros G e H. apply tagMatch_iff. right. now apply (tokens_occur comma).
  - exists "air,policy", "ai", Air.entry.
    split; [reflexivity|]. split; [reflexivity|].
    cbn. intros [H | [H | []]]; discriminate.
Qed.

(** ** Entries without tags *)

(** C10.  An entry without a data-tags attribute is read as having the empty
    tags string: updateDisplay returns normally, the tag test treats the
    entry as it treats an entry whose data-tags is empty, and for every
    active tag that is a non-empty string other than "all" the entry ends
    hidden, whatever its type. *)
Theorem updateDisplay_absent_tags (s : State) (i : nat) (E : Element) (G : string) :
  nth_error (allPubs s) i = Some E ->
  getAttribute E "data-tags" = None ->
  activeTag s = Some G ->
  G <> "" ->
  G <> "all" ->
  dataTags E = ""
  /\ (forall G' : value,
        tagMatch G' E
        = tagMatch G' (mkElement (("data-tags", "") :: attributes E) (classList E)
                                 (style_display E) (textContent E)))
  /\ exists s' E',
      updateDisplay s = Normal s'
      /\ nth_error (allPubs s') i = Some E'
      /\ attributes E' = attributes E
      /\ style_display E' = "none"
      /\ isVisible E' = false.
Proof.
  intros HE Hnone HG Hne Hall.
  split; [unfold dataTags; now rewrite Hnone|].
  split.
  { intros G'. unfold tagMatch. now rewrite Hnone. }
  assert (tagMatch (Some G) E = false) as Hm.
  { unfold tagMatch. rewrite Hnone. cbn [or_else strict_eq].
    destruct (String.eqb_spec G "all") as [->|_]; [congruence|].
    unfold indexOf. cbn [ToString indexOf_from orb].
    destruct G as [|c G]; [congruence|]. reflexivity. }
  exists (displayed s), (showOne (activeType s) (activeTag s) E).
  split; [apply updateDisplay_displayed|].
  split; [unfold allPubs in *; cbn [displayed page pub_entry]; now apply map_nth_error|].
  split; [apply showOne_attributes|].
  assert (style_display (showOne (activeType s) (activeTag s) E) = "none") as Hd.
  { rewrite showOne_display, HG, Hm. now rewrite andb_false_r. }
  split; [exact Hd|]. unfold isVisible. now rewrite Hd.
Qed.

Lemma updateDisplay_absent_tags_witness :
  dataTags (mkElement [("data-type", "paper")] ["pub-entry"] "" "") = ""
  /\ (forall G' : value,
        tagMatch G' (mkElement [("data-type", "paper")] ["pub-entry"] "" "")
        = tagMatch G' (mkElement [("data-tags", ""); ("data-type", "paper")]
                                 ["pub-entry"] "" ""))
  /\ exists s' E',
      updateDisplay
        (mkState (Some "paper") (Some "policy")
           (mkPage [mkElement [("data-type", "paper")] ["pub-entry"] "" ""]
                   [] [] None None None) 0) = Normal s'
      /\ nth_error (allPubs s') 0 = Some E'
      /\ attributes E' = [("data-type", "paper")]
      /\ style_display E' = "none"
      /\ isVisible E' = false.
Proof.
  apply (updateDisplay_absent_tags
           (mkState (Some "paper") (Some "policy")
              (mkPage [mkElement [("data-type", "paper")] ["pub-entry"] "" ""]
                      [] [] None None None) 0)
           0 (mkElement [("data-type", "paper")] ["pub-entry"] "" "") "policy");
    try reflexivity; discriminate.
Defined.

(** * Further properties of the script *)

(** ** updateDisplay recomputes everything it writes *)

Section Recompute.

Lemma showOne_eq T G e :
  showOne T G e = set_display (if shows T G e then "" else "none") e.
Proof. unfold showOne, showPub, shows. now destruct (typeMatch T e && tagMatch G e). Qed.

Lemma shows_set_display T G d e : shows T G (set_display d e) = shows T G e.
Proof. reflexivity. Qed.

Lemma showOne_absorbs T G T0 G0 e : showOne T G (showOne T0 G0 e) = showOne T G e.
Proof. rewrite !showOne_eq, shows_set_display. reflexivity. Qed.

Lemma showOne_map_absorbs T G T0 G0 (l : list Element) :
  map (showOne T G) (map (showOne T0 G0) l) = map (showOne T G) l.
Proof. rewrite map_map. apply map_ext. intros e. apply showOne_absorbs. Qed.

Lemma numVisible_shows T G (l : list Element) :
  numVisible (map (showOne T G) l) = length (filter (shows T G) l).
Proof.
  unfold numVisible. induction l as [|e l IH]; cbn [map filter]; [reflexivity|].
  rewrite showOne_visible. fold (shows T G e).
  destruct (shows T G e); cbn [length]; now rewrite IH.
Qed.

(** A run of updateDisplay forgets what an earlier run wrote. *)
Lemma displayed_reselect_displayed T G cs s :
  displayed (reselect T G cs (displayed s)) = displayed (reselect T G cs s).
Proof.
  unfold displayed, reselect, allPubs, countEl, clearBtn.
  cbn [activeType activeTag page scrolls pub_entry controls pub_tag
       pub_count clear_filters filter_section with_controls].
  rewrite showOne_map_absorbs.
  now destruct (pub_count (page s)), (clear_filters (page s)).
Qed.

Lemma displayed_idempotent s : displayed (displayed s) = displayed s.
Proof.
  unfold displayed, allPubs, countEl, clearBtn.
  cbn [activeType activeTag page scrolls pub_entry controls pub_tag
       pub_count clear_filters filter_section].
  rewrite showOne_map_absorbs.
  now destruct (pub_count (page s)), (clear_filters (page s)).
Qed.

Lemma displayed_atScroll n s : displayed (atScroll n s) = atScroll n (displayed s).
Proof. reflexivity. Qed.

Lemma inSync_displayed s : inSync (displayed s).
Proof. apply displayed_idempotent. Qed.

Lemma inSync_atScroll n s : inSync s -> inSync (atScroll n s).
Proof. unfold inSync. intros H. now rewrite displayed_atScroll, H. Qed.

End Recompute.

(** X1.  updateDisplay is idempotent: run on the state it has produced, it
    returns that state unchanged. *)
Theorem updateDisplay_idempotent (s : State) :
  exists s1, updateDisplay s = Normal s1 /\ updateDisplay s1 = Normal s1.
Proof.
  exists (displayed s). split; [apply updateDisplay_displayed|].
  now rewrite updateDisplay_displayed, displayed_idempotent.
Qed.

(** X3.  updateDisplay keeps the number of entries; the number of entries it
    leaves visible is the number of entries passing the type and tag tests,
    is at most the number of entries, and is all of them when both
    selections are "all". *)
Theorem updateDisplay_visible_count (s : State) :
  exists s',
    updateDisplay s = Normal s'
    /\ length (allPubs s') = length (allPubs s)
    /\ numVisible (allPubs s')
       = length (filter (shows (activeType s) (activeTag s)) (allPubs s))
    /\ numVisible (allPubs s') <= length (allPubs s)
    /\ (activeType s = Some "all" -> activeTag s = Some "all" ->
        numVisible (allPubs s') = length (allPubs s)).
Proof.
  exists (displayed s). split; [apply updateDisplay_displayed|].
  unfold allPubs. cbn [displayed page pub_entry]. unfold allPubs.
  rewrite length_map, numVisible_shows.
  split; [reflexivity|]. split; [reflexivity|].
  split; [apply filter_length_le|].
  intros -> ->. f_equal. induction (pub_entry (page s)) as [|e l IH]; [reflexivity|].
  cbn [filter]. change (shows (Some "all") (Some "all") e) with true.
  now rewrite IH.
Qed.

(** ** The listeners in closed form *)

Section Listeners.

Lemma nth_error_clickMarks_same i (l : list Element) b :
  nth_error l i = Some b ->
  nth_error (clickMarks i l) i
  = Some (classList_add "active" (classList_remove "active" b)).
Proof.
  unfold clickMarks. revert i. induction l as [|x l IH]; intros [|i] H;
    try discriminate; cbn [map update_nth nth_error] in *.
  - now injection H as ->.
  - now apply IH.
Qed.

Lemma nth_error_clickMarks_other i j (l : list Element) b :
  j <> i ->
  nth_error l j = Some b ->
  nth_error (clickMarks i l) j = Some (classList_remove "active" b).
Proof.
  unfold clickMarks. revert i j. induction l as [|x l IH]; intros [|i] [|j] Hne H;
    try discriminate; try congruence; cbn [map update_nth nth_error] in *.
  - now apply map_nth_error.
  - now injection H as ->.
  - apply IH; [congruence | exact H].
Qed.

Lemma length_clickMarks i (l : list Element) : length (clickMarks i l) = length l.
Proof.
  unfold clickMarks. revert i. induction l as [|x l IH]; intros [|i];
    cbn [map update_nth length]; try reflexivity.
  - now rewrite length_map.
  - now rewrite IH.
Qed.

(** After the listener of the [i]-th control, the control at [j] is marked
    exactly when [j = i]; no attribute has changed. *)
Lemma clickMarks_spec i (l : list Element) b0 j b' :
  nth_error l i = Some b0 ->
  nth_error (clickMarks i l) j = Some b' ->
  (isActive b' = true <-> j = i)
  /\ exists b, nth_error l j = Some b /\ attributes b' = attributes b.
Proof.
  intros Hi Hj.
  assert (j < length l) as Hlt.
  { rewrite <- (length_clickMarks i). apply nth_error_Some. congruence. }
  destruct (nth_error l j) as [b|] eqn:Eb; [|apply nth_error_None in Eb; lia].
  destruct (Nat.eq_dec j i) as [->|Hne].
  - rewrite (nth_error_clickMarks_same _ _ _ Eb) in Hj. injection Hj as <-.
    split; [split; [reflexivity | intros _; apply isActive_add]|].
    now exists b.
  - rewrite (nth_error_clickMarks_other _ _ _ _ Hne Eb) in Hj. injection Hj as <-.
    split; [|now exists b].
    rewrite isActive_remove. split; [discriminate | contradiction].
Qed.

End Listeners.

Lemma nth_error_clickSel_other sel i (l : list Element) k b :
  nth_error l k = Some b -> sel b = false ->
  nth_error (clickSel sel i l) k = Some b.
Proof.
  intros H Hb. unfold clickSel.
  apply nth_error_update_sel_other; [|exact Hb].
  now apply nth_error_forEachSel_other.
Qed.

Lemma length_clickSel sel i (l : list Element) : length (clickSel sel i l) = length l.
Proof. unfold clickSel. now rewrite length_update_sel, length_forEachSel. Qed.

(** X5.  The listener of the i-th type control sets the active type to that
    control's data-type and leaves that control, and no other type control,
    marked active.  The active tag is untouched, and so is every control
    that is not a type control: the tag controls are untouched when no
    control is of both kinds.  No attribute of a type control changes. *)
Theorem typeBtn_click_marks (i : nat) (s : State) (btn : Element) :
  nth_error (type_btn (page s)) i = Some btn ->
  exists s',
    typeBtn_click i s = Normal s'
    /\ activeType s' = getAttribute btn "data-type"
    /\ activeTag s' = activeTag s
    /\ length (controls (page s')) = length (controls (page s))
    /\ (forall k b, nth_error (controls (page s)) k = Some b ->
          isTypeBtn b = false ->
          nth_error (controls (page s')) k = Some b)
    /\ (noDual (controls (page s)) = true -> tag_btn (page s') = tag_btn (page s))
    /\ length (type_btn (page s')) = length (type_btn (page s))
    /\ forall j b', nth_error (type_btn (page s')) j = Some b' ->
         (isActive b' = true <-> j = i)
         /\ exists b, nth_error (type_btn (page s)) j = Some b
                      /\ attributes b' = attributes b.
Proof.
  intros H. rewrite (typeBtn_click_closed _ _ _ H). eexists. split; [reflexivity|].
  rewrite type_btn_displayed_reselect, tag_btn_displayed_reselect.
  cbn [displayed reselect activeType activeTag page controls with_controls].
  split; [reflexivity|]. split; [reflexivity|].
  split; [apply length_clickSel|].
  split; [intros k b Hk Hb; now apply nth_error_clickSel_other|].
  split; [intros Hd; now apply tag_btn_clickSel_type|].
  rewrite type_btn_clickSel.
  split; [apply length_clickMarks|].
  intros j b'. now apply clickMarks_spec with (b0 := btn).
Qed.

Lemma typeBtn_click_marks_witness :
  exists s',
    typeBtn_click 1 Dual.paperSelected = Normal s'
    /\ activeType s' = getAttribute (classList_add "active" (Sample.dualBtn "paper" "ai" [])) "data-type"
    /\ activeTag s' = activeTag Dual.paperSelected
    /\ length (controls (page s')) = length (controls (page Dual.paperSelected))
    /\ (forall k b, nth_error (controls (page Dual.paperSelected)) k = Some b ->
          isTypeBtn b = false ->
          nth_error (controls (page s')) k = Some b)
    /\ (noDual (controls (page Dual.paperSelected)) = true ->
        tag_btn (page s') = tag_btn (page Dual.paperSelected))
    /\ length (type_btn (page s')) = length (type_btn (page Dual.paperSelected))
    /\ forall j b', nth_error (type_btn (page s')) j = Some b' ->
         (isActive b' = true <-> j = 1)
         /\ exists b, nth_error (type_btn (page Dual.paperSelected)) j = Some b
                      /\ attributes b' = attributes b.
Proof.
  apply (typeBtn_click_marks 1 Dual.paperSelected
           (classList_add "active" (Sample.dualBtn "paper" "ai" []))).
  reflexivity.
Defined.

(** X6.  The listener of the i-th tag control sets the active tag to that
    control's data-tag and leaves that control, and no other tag control,
    marked active.  The active type is untouched, and so is every control
    that is not a tag control: the type controls are untouched when no
    control is of both kinds.  No attribute of a tag control changes. *)
Theorem tagBtn_click_marks (i : nat) (s : State) (btn : Element) :
  nth_error (tag_btn (page s)) i = Some btn ->
  exists s',
    tagBtn_click i s = Normal s'
    /\ activeTag s' = getAttribute btn "data-tag"
    /\ activeType s' = activeType s
    /\ length (controls (page s')) = length (controls (page s))
    /\ (forall k b, nth_error (controls (page s)) k = Some b ->
          isTagBtn b = false ->
          nth_error (controls (page s')) k = Some b)
    /\ (noDual (controls (page s)) = true -> type_btn (page s') = type_btn (page s))
    /\ length (tag_btn (page s')) = length (tag_btn (page s))
    /\ forall j b', nth_error (tag_btn (page s')) j = Some b' ->
         (isActive b' = true <-> j = i)
         /\ exists b, nth_error (tag_btn (page s)) j = Some b
                      /\ attributes b' = attributes b.
Proof.
  intros H. rewrite (tagBtn_click_closed _ _ _ H). eexists. split; [reflexivity|].
  rewrite type_btn_displayed_reselect, tag_btn_displayed_reselect.
  cbn [displayed reselect activeType activeTag page controls with_controls].
  split; [reflexivity|]. split; [reflexivity|].
  split; [apply length_clickSel|].
  split; [intros k b Hk Hb; now apply nth_error_clickSel_other|].
  split; [intros Hd; now apply type_btn_clickSel_tag|].
  rewrite tag_btn_clickSel.
  split; [apply length_clickMarks|].
  intros j b'. now apply clickMarks_spec with (b0 := btn).
Qed.

Lemma tagBtn_click_marks_witness :
  exists s',
    tagBtn_click 2 Dual.paperSelected = Normal s'
    /\ activeTag s' = getAttribute (Sample.tagBtn "policy" []) "data-tag"
    /\ activeType s' = activeType Dual.paperSelected
    /\ length (controls (page s')) = length (controls (page Dual.paperSelected))
    /\ (forall k b, nth_error (controls (page Dual.paperSelected)) k = Some b ->
          isTagBtn b = false ->
          nth_error (controls (page s')) k = Some b)
    /\ (noDual (controls (page Dual.paperSelected)) = true ->
        type_btn (page s') = type_btn (page Dual.paperSelected))
    /\ length (tag_btn (page s')) = length (tag_btn (page Dual.paperSelected))
    /\ forall j b', nth_error (tag_btn (page s')) j = Some b' ->
         (isActive b' = true <-> j = 2)
         /\ exists b, nth_error (tag_btn (page Dual.paperSelected)) j = Some b
                      /\ attributes b' = attributes b.
Proof.
  apply (tagBtn_click_marks 2 Dual.paperSelected (Sample.tagBtn "policy" [])).
  reflexivity.
Defined.

(** X7.  The listener of a pill leaves a tag control marked active exactly
    when its data-tag is the pill's data-tag (both may be absent), changes
    no attribute, and asks for one scroll when the page has a filter
    section and for none otherwise. *)
Theorem pubTag_click_marks (pill : Element) (s : State) :
  exists s',
    pubTag_click pill s = Normal s'
    /\ length (tag_btn (page s')) = length (tag_btn (page s))
    /\ (forall j b, nth_error (tag_btn (page s)) j = Some b ->
          exists b', nth_error (tag_btn (page s')) j = Some b'
                     /\ attributes b' = attributes b
                     /\ (isActive b' = true
                         <-> getAttribute b "data-tag" = getAttribute pill "data-tag"))
    /\ scrolls s'
       = (if truthy (filter_section (page s)) then S (scrolls s) else scrolls s).
Proof.
  rewrite pubTag_click_closed. eexists. split; [reflexivity|].
  cbn [atScroll page scrolls]. rewrite tag_btn_displayed_reselect, tag_btn_markTag.
  fold (tag_btn (page s)).
  split; [apply length_map|]. split; [|reflexivity].
  intros j b Hb. exists (markTag (getAttribute pill "data-tag") b).
  split; [now apply map_nth_error|].
  split; [apply keepsAttrs_markTag|].
  rewrite isActive_markTag. unfold carries. apply strict_eq_iff.
Qed.

(** X8.  The clear listener leaves a type or tag control marked active
    exactly when its data-type or its data-tag is "all", and changes no
    attribute. *)
Theorem clearFilters_marks (s : State) :
  exists s',
    clearFilters s = Normal s'
    /\ forall j b,
         nth_error (type_btn (page s) ++ tag_btn (page s)) j = Some b ->
         exists b',
           nth_error (type_btn (page s') ++ tag_btn (page s')) j = Some b'
           /\ attributes b' = attributes b
           /\ (isActive b' = true
               <-> getAttribute b "data-type" = Some "all"
                   \/ getAttribute b "data-tag" = Some "all").
Proof.
  rewrite clearFilters_cleared. eexists. split; [reflexivity|].
  rewrite cleared_reselect, type_btn_displayed_reselect, tag_btn_displayed_reselect.
  rewrite type_btn_markAll, tag_btn_markAll.
  fold (type_btn (page s)). fold (tag_btn (page s)).
  rewrite <- map_app.
  intros j b Hb. exists (markAll b).
  split; [now apply map_nth_error|].
  split; [apply keepsAttrs_markAll|].
  rewrite isActive_markAll. unfold allish.
  now rewrite orb_true_iff, !strict_eq_iff.
Qed.

(** X4.  At load the script selects ("all", "all"), shows every entry,
    writes the number of entries into the count label, hides the clear
    control, and leaves the controls, their marks included, as the markup
    has them. *)
Theorem init_shows_everything (p : Page) :
  exists s,
    init p = Normal s
    /\ activeType s = Some "all" /\ activeTag s = Some "all"
    /\ length (allPubs s) = length (pub_entry p)
    /\ Forall (fun e => style_display e = "") (allPubs s)
    /\ numVisible (allPubs s) = length (pub_entry p)
    /\ (forall c, countEl s = Some c -> textContent c = countLabel (length (pub_entry p)))
    /\ (forall b, clearBtn s = Some b -> style_display b = "none")
    /\ type_btn (page s) = type_btn p
    /\ tag_btn (page s) = tag_btn p
    /\ scrolls s = 0.
Proof.
  rewrite init_displayed. eexists. split; [reflexivity|].
  assert (numVisible (map (showOne (Some "all") (Some "all")) (pub_entry p))
          = length (pub_entry p)) as Hn.
  { rewrite numVisible_shows. induction (pub_entry p) as [|e l IH]; [reflexivity|].
    cbn [filter]. change (shows (Some "all") (Some "all") e) with true.
    cbn [length]. now rewrite IH. }
  unfold allPubs, countEl, clearBtn.
  unfold type_btn, tag_btn.
  cbn [displayed activeType activeTag page scrolls pub_entry controls
       pub_count clear_filters].
  unfold allPubs, countEl, clearBtn. cbn [page].
  split; [reflexivity|]. split; [reflexivity|].
  split; [apply length_map|].
  split.
  { apply Forall_forall. intros e He. apply in_map_iff in He.
    destruct He as [e0 [<- _]]. now rewrite showOne_all. }
  split; [exact Hn|].
  split.
  { intros c Hc. destruct (pub_count p); [|discriminate].
    cbn [option_map] in Hc. injection Hc as <-.
    cbn [set_textContent textContent]. rewrite Hn. apply countText_label. }
  split; [|now repeat split].
  intros b Hb. destruct (clear_filters p); [|discriminate].
  cbn [option_map] in Hb. now injection Hb as <-.
Qed.

(** ** The markup stays as it was *)

Section Frozen.

Lemma notActive_filter_add (b : Element) :
  filter notActive (classList (classList_add "active" b))
  = filter notActive (classList b).
Proof.
  unfold classList_add. cbn [classList].
  destruct (classList_contains b "active"); [reflexivity|].
  rewrite filter_app. cbn [filter]. unfold notActive at 2.
  rewrite String.eqb_refl. cbn [negb]. apply app_nil_r.
Qed.

Lemma notActive_filter_remove (b : Element) :
  filter notActive (classList (classList_remove "active" b))
  = filter notActive (classList b).
Proof. unfold classList_remove. cbn [classList]. apply (filter_idem notActive). Qed.

Lemma controlMarkup_add (b : Element) :
  controlMarkup (classList_add "active" b) = controlMarkup b.
Proof. unfold controlMarkup. now rewrite notActive_filter_add. Qed.

Lemma controlMarkup_remove (b : Element) :
  controlMarkup (classList_remove "active" b) = controlMarkup b.
Proof. unfold controlMarkup. now rewrite notActive_filter_remove. Qed.

Lemma controlMarkup_markTag tag (b : Element) :
  controlMarkup (markTag tag b) = controlMarkup b.
Proof.
  unfold markTag. destruct (strict_eq _ tag);
    now rewrite ?controlMarkup_add, controlMarkup_remove.
Qed.

Lemma controlMarkup_markAll (b : Element) : controlMarkup (markAll b) = controlMarkup b.
Proof.
  unfold markAll. destruct (strict_eq _ (Some "all") || strict_eq _ (Some "all"));
    now rewrite ?controlMarkup_add, controlMarkup_remove.
Qed.

Lemma map_keeps {A B} (f : A -> B) (g : A -> A) (l : list A) :
  (forall x, f (g x) = f x) -> map f (map g l) = map f l.
Proof. intros H. rewrite map_map. now apply map_ext. Qed.

Lemma update_nth_keeps {A B} (f : A -> B) (g : A -> A) i (l : list A) :
  (forall x, f (g x) = f x) -> map f (update_nth i g l) = map f l.
Proof.
  intros H. revert i. induction l as [|x l IH]; intros [|i];
    cbn [update_nth map]; try reflexivity.
  - now rewrite H.
  - now rewrite IH.
Qed.

Lemma controlMarkup_clickMarks i (l : list Element) :
  map controlMarkup (clickMarks i l) = map controlMarkup l.
Proof.
  unfold clickMarks.
  rewrite (update_nth_keeps _ _ _ _ controlMarkup_add).
  apply map_keeps, controlMarkup_remove.
Qed.

Lemma entryMarkup_showOne T G e : entryMarkup (showOne T G e) = entryMarkup e.
Proof. rewrite showOne_eq. reflexivity. Qed.

Lemma controlMarkup_forEachSel sel f (l : list Element) :
  (forall x, controlMarkup (f x) = controlMarkup x) ->
  map controlMarkup (forEachSel sel f l) = map controlMarkup l.
Proof.
  intros H. unfold forEachSel. rewrite map_map. apply map_ext.
  intros x. now destruct (sel x).
Qed.

Lemma controlMarkup_update_sel sel i f (l : list Element) :
  (forall x, controlMarkup (f x) = controlMarkup x) ->
  map controlMarkup (update_sel sel i f l) = map controlMarkup l.
Proof.
  intros H. revert i. induction l as [|x l IH]; intros i;
    cbn [update_sel map]; [reflexivity|].
  destruct (sel x); [destruct i|]; cbn [map]; now rewrite ?H, ?IH.
Qed.

Lemma controlMarkup_clickSel sel i (l : list Element) :
  map controlMarkup (clickSel sel i l) = map controlMarkup l.
Proof.
  unfold clickSel.
  now rewrite (controlMarkup_update_sel _ _ _ _ controlMarkup_add),
    (controlMarkup_forEachSel _ _ _ controlMarkup_remove).
Qed.

(** Whether an element is a type control, or a tag control, shows in its
    markup. *)
Lemma isTypeBtn_markup a b :
  controlMarkup a = controlMarkup b -> isTypeBtn a = isTypeBtn b.
Proof.
  intros H. rewrite <- (isTypeBtn_remove a), <- (isTypeBtn_remove b).
  unfold isTypeBtn, classList_contains, classList_remove. cbn [classList].
  unfold controlMarkup in H. injection H as _ H _ _. unfold notActive in H.
  now rewrite H.
Qed.

Lemma isTagBtn_markup a b :
  controlMarkup a = controlMarkup b -> isTagBtn a = isTagBtn b.
Proof.
  intros H. rewrite <- (isTagBtn_remove a), <- (isTagBtn_remove b).
  unfold isTagBtn, classList_contains, classList_remove. cbn [classList].
  unfold controlMarkup in H. injection H as _ H _ _. unfold notActive in H.
  now rewrite H.
Qed.

Lemma controlMarkup_filter (sel : Element -> bool) (l l' : list Element) :
  (forall a b, controlMarkup a = controlMarkup b -> sel a = sel b) ->
  map controlMarkup l = map controlMarkup l' ->
  map controlMarkup (filter sel l) = map controlMarkup (filter sel l').
Proof.
  intros Hsel. revert l'.
  induction l as [|x l IH]; intros [|y l'] H; try discriminate; [reflexivity|].
  cbn [map] in H.
  assert (controlMarkup x = controlMarkup y) as Hxy
      by exact (f_equal (hd (controlMarkup x)) H).
  assert (map controlMarkup l = map controlMarkup l') as Htl
      by exact (f_equal (@tl _) H).
  cbn [filter]. rewrite (Hsel x y Hxy).
  destruct (sel y); cbn [map]; [f_equal; [exact Hxy|]|]; now apply IH.
Qed.

Lemma markup_displayed s : markup (page (displayed s)) = markup (page s).
Proof.
  unfold markup, type_btn, tag_btn, displayed, allPubs, countEl, clearBtn.
  cbn [page pub_entry controls pub_tag pub_count clear_filters filter_section].
  rewrite (map_keeps entryMarkup _ _ (entryMarkup_showOne _ _)).
  now destruct (pub_count (page s)), (clear_filters (page s)).
Qed.

Lemma markup_reselect T G cs s :
  map controlMarkup cs = map controlMarkup (controls (page s)) ->
  markup (page (reselect T G cs s)) = markup (page s).
Proof.
  intros H. unfold markup, type_btn, tag_btn, reselect.
  cbn [page pub_entry controls pub_tag pub_count clear_filters filter_section
       with_controls].
  rewrite H, (controlMarkup_filter isTypeBtn _ _ isTypeBtn_markup H),
    (controlMarkup_filter isTagBtn _ _ isTagBtn_markup H).
  reflexivity.
Qed.

Lemma dispatch_markup ev s :
  exists s', dispatch ev s = Normal s' /\ markup (page s') = markup (page s).
Proof.
  destruct ev as [i|i|i|]; cbn [dispatch].
  - destruct (nth_error (type_btn (page s)) i) as [btn|] eqn:E.
    + rewrite (typeBtn_click_closed _ _ _ E). eexists. split; [reflexivity|].
      rewrite markup_displayed. apply markup_reselect, controlMarkup_clickSel.
    + exists s. now rewrite (typeBtn_click_none _ _ E).
  - destruct (nth_error (tag_btn (page s)) i) as [btn|] eqn:E.
    + rewrite (tagBtn_click_closed _ _ _ E). eexists. split; [reflexivity|].
      rewrite markup_displayed. apply markup_reselect, controlMarkup_clickSel.
    + exists s. now rewrite (tagBtn_click_none _ _ E).
  - destruct (nth_error (pub_tag (page s)) i) as [pill|]; [|now exists s].
    rewrite pubTag_click_closed. eexists. split; [reflexivity|].
    cbn [atScroll page]. rewrite markup_displayed.
    apply markup_reselect, controlMarkup_forEachSel, controlMarkup_markTag.
  - destruct (truthy (clearBtn s)); [|now exists s].
    rewrite clearFilters_cleared, cleared_reselect. eexists. split; [reflexivity|].
    rewrite markup_displayed.
    apply markup_reselect, controlMarkup_forEachSel, controlMarkup_markAll.
Qed.

End Frozen.

(** X2.  updateDisplay writes nothing but the entries' inline display, the
    count label's text and the clear control's inline display: the
    selection, the type and tag controls with their marks, the pills, the
    filter section and the scroll count are unchanged, and so are the
    attributes, class tokens and text of every entry, the attributes,
    class tokens and display of the count label, and the attributes, class
    tokens and text of the clear control. *)
Theorem updateDisplay_frame (s : State) :
  exists s',
    updateDisplay s = Normal s'
    /\ activeType s' = activeType s
    /\ activeTag s' = activeTag s
    /\ type_btn (page s') = type_btn (page s)
    /\ tag_btn (page s') = tag_btn (page s)
    /\ scrolls s' = scrolls s
    /\ markup (page s') = markup (page s).
Proof.
  exists (displayed s). split; [apply updateDisplay_displayed|].
  repeat (split; [reflexivity|]). apply markup_displayed.
Qed.

(** X13.  From load on, through any sequence of clicks, the script leaves
    the markup alone: the entries keep their attributes, class tokens and
    text, the controls keep their attributes, text, display and every class
    token other than "active", the pills and the filter section are
    untouched, and the count label and the clear control stay present or
    absent, with their attributes and class tokens. *)
Theorem run_keeps_markup (p : Page) (evs : list Event) :
  exists s,
    (s0 <- init p ;; run evs s0) = Normal s
    /\ markup (page s) = markup p.
Proof.
  rewrite init_displayed. cbn [bind].
  assert (forall s, exists s', run evs s = Normal s' /\ markup (page s') = markup (page s))
    as Hrun.
  { induction evs as [|ev evs IH]; intros s; cbn [run]; [now exists s|].
    destruct (dispatch_markup ev s) as [s1 [-> H1]]. cbn [bind].
    destruct (IH s1) as [s2 [H2 H3]]. exists s2. split; [exact H2 | congruence]. }
  destruct (Hrun (displayed (mkState (Some "all") (Some "all") p 0))) as [s [H1 H2]].
  exists s. split; [exact H1|]. now rewrite H2, markup_displayed.
Qed.

(** ** The display never goes stale *)

Section InSync.

Lemma dispatch_inSync ev s :
  inSync s -> exists s', dispatch ev s = Normal s' /\ inSync s'.
Proof.
  intros Hs. destruct ev as [i|i|i|]; cbn [dispatch].
  - destruct (nth_error (type_btn (page s)) i) as [btn|] eqn:E.
    + rewrite (typeBtn_click_closed _ _ _ E). eexists. split; [reflexivity|].
      apply inSync_displayed.
    + exists s. now rewrite (typeBtn_click_none _ _ E).
  - destruct (nth_error (tag_btn (page s)) i) as [btn|] eqn:E.
    + rewrite (tagBtn_click_closed _ _ _ E). eexists. split; [reflexivity|].
      apply inSync_displayed.
    + exists s. now rewrite (tagBtn_click_none _ _ E).
  - destruct (nth_error (pub_tag (page s)) i) as [pill|]; [|now exists s].
    rewrite pubTag_click_closed. eexists. split; [reflexivity|].
    apply inSync_atScroll, inSync_displayed.
  - destruct (truthy (clearBtn s)); [|now exists s].
    rewrite clearFilters_cleared. eexists. split; [reflexivity|].
    apply inSync_displayed.
Qed.

Lemma run_inSync evs s :
  inSync s -> exists s', run evs s = Normal s' /\ inSync s'.
Proof.
  revert s. induction evs as [|ev evs IH]; intros s H; cbn [run]; [now exists s|].
  destruct (dispatch_inSync ev s H) as [s1 [-> H1]]. cbn [bind]. now apply IH.
Qed.

Lemma inSync_entries s :
  inSync s ->
  map (showOne (activeType s) (activeTag s)) (allPubs s) = allPubs s.
Proof.
  unfold inSync. intros H.
  apply (f_equal (fun x => pub_entry (page x))) in H. exact H.
Qed.

Lemma inSync_entry s i E :
  inSync s -> nth_error (allPubs s) i = Some E ->
  showOne (activeType s) (activeTag s) E = E.
Proof.
  intros Hs HE.
  pose proof (map_nth_error (showOne (activeType s) (activeTag s)) _ _ HE) as H.
  rewrite (inSync_entries s Hs) in H. congruence.
Qed.

End InSync.

(** X12.  The display never goes stale: after load and any sequence of
    clicks the script returns normally in a state that updateDisplay would
    not change, in which an entry is visible exactly when the current
    selection selects it, the count label, when present, shows the number
    of visible entries, and the clear control, when present, is shown
    exactly when a selection is not "all". *)
Theorem run_display_in_sync (p : Page) (evs : list Event) :
  exists s,
    (s0 <- init p ;; run evs s0) = Normal s
    /\ updateDisplay s = Normal s
    /\ (forall i E, nth_error (allPubs s) i = Some E ->
          (isVisible E = true <-> selected (activeType s) (activeTag s) E))
    /\ (forall c, countEl s = Some c ->
          textContent c = countLabel (numVisible (allPubs s)))
    /\ (forall b, clearBtn s = Some b ->
          (style_display b = "inline-block"
           <-> activeType s <> Some "all" \/ activeTag s <> Some "all")
          /\ (style_display b = "none"
              <-> activeType s = Some "all" /\ activeTag s = Some "all")).
Proof.
  rewrite init_displayed. cbn [bind].
  destruct (run_inSync evs _ (inSync_displayed (mkState (Some "all") (Some "all") p 0)))
    as [s [Hrun Hs]].
  exists s. split; [exact Hrun|].
  split; [rewrite updateDisplay_displayed; now rewrite Hs|].
  split; [|split].
  - intros i E HE. rewrite <- (inSync_entry s i E Hs HE) at 1.
    rewrite showOne_visible. apply selected_iff.
  - intros c Hc. pose proof Hs as H. unfold inSync in H.
    apply (f_equal countEl) in H. unfold countEl at 1 in H.
    cbn [displayed page pub_count] in H. rewrite Hc in H.
    cbn [option_map] in H. injection H as H.
    rewrite (inSync_entries s Hs) in H.
    rewrite <- H. cbn [set_textContent textContent]. apply countText_label.
  - intros b Hb. pose proof Hs as H. unfold inSync in H.
    apply (f_equal clearBtn) in H. unfold clearBtn at 1 in H.
    cbn [displayed page clear_filters] in H. rewrite Hb in H.
    cbn [option_map] in H. injection H as H.
    rewrite <- H. cbn [set_display style_display].
    split; [apply clearDisplay_shown | apply clearDisplay_hidden].
Qed.


(** ** How the listeners compose *)

Section Compose.

(** A listener reads the selection and the controls only: what an earlier
    updateDisplay wrote makes no difference to it. *)
Lemma typeBtn_click_displayed i s btn :
  nth_error (type_btn (page s)) i = Some btn ->
  typeBtn_click i (displayed s) = typeBtn_click i s.
Proof.
  intros H.
  rewrite (typeBtn_click_closed i (displayed s) btn H), (typeBtn_click_closed _ _ _ H).
  f_equal. apply (displayed_reselect_displayed (getAttribute btn "data-type")
                    (activeTag s) (clickSel isTypeBtn i (controls (page s))) s).
Qed.

Lemma tagBtn_click_displayed i s btn :
  nth_error (tag_btn (page s)) i = Some btn ->
  tagBtn_click i (displayed s) = tagBtn_click i s.
Proof.
  intros H.
  rewrite (tagBtn_click_closed i (displayed s) btn H), (tagBtn_click_closed _ _ _ H).
  f_equal. apply (displayed_reselect_displayed (activeType s)
                    (getAttribute btn "data-tag")
                    (clickSel isTagBtn i (controls (page s))) s).
Qed.

Lemma cleared_displayed s : cleared (displayed s) = cleared s.
Proof.
  rewrite !cleared_reselect. cbn [displayed page controls].
  apply displayed_reselect_displayed.
Qed.

Lemma cleared_atScroll n s : cleared (atScroll n s) = atScroll n (cleared s).
Proof. reflexivity. Qed.

Lemma cleared_reselect_same T G cs s :
  forEachSel isControl markAll cs
  = forEachSel isControl markAll (controls (page s)) ->
  cleared (reselect T G cs s) = cleared s.
Proof.
  intros H. rewrite !cleared_reselect.
  cbn [reselect page controls with_controls]. rewrite H. reflexivity.
Qed.

Lemma remove_add (b : Element) :
  classList_remove "active" (classList_add "active" b) = classList_remove "active" b.
Proof.
  unfold classList_remove. f_equal; try reflexivity.
  apply notActive_filter_add.
Qed.

Lemma markAll_add b : markAll (classList_add "active" b) = markAll b.
Proof. unfold markAll. now rewrite remove_add. Qed.

Lemma markAll_remove b : markAll (classList_remove "active" b) = markAll b.
Proof. unfold markAll. now rewrite remove_remove. Qed.

Lemma markAll_markTag tag b : markAll (markTag tag b) = markAll b.
Proof.
  unfold markTag. destruct (strict_eq _ tag);
    now rewrite ?markAll_add, markAll_remove.
Qed.

(** The clear listener overwrites the marks a control's listener left. *)
Lemma markAll_clickSel sel i (l : list Element) :
  (forall x, sel x = true -> isControl x = true) ->
  forEachSel isControl markAll (clickSel sel i l) = forEachSel isControl markAll l.
Proof.
  intros Hsub. unfold clickSel.
  rewrite forEachSel_update_absorbs;
    [| exact Hsub | intros x; apply keepsKind_control, keepsKind_add
     | apply markAll_add].
  apply forEachSel_absorbs;
    [exact Hsub | intros x; apply keepsKind_control, keepsKind_remove
    | apply markAll_remove].
Qed.

Lemma markAll_after_markTag tag (l : list Element) :
  forEachSel isControl markAll (forEachSel isTagBtn (markTag tag) l)
  = forEachSel isControl markAll l.
Proof.
  apply forEachSel_absorbs;
    [apply isTagBtn_isControl | intros x; apply keepsKind_control, keepsKind_markTag
    | apply markAll_markTag].
Qed.



(** The elements of a list with the same markup, position by position. *)
Lemma nth_error_same_markup (l l' : list Element) j b :
  map controlMarkup l' = map controlMarkup l ->
  nth_error l j = Some b ->
  exists b', nth_error l' j = Some b' /\ controlMarkup b' = controlMarkup b.
Proof.
  intros H Hb. pose proof (map_nth_error controlMarkup _ _ Hb) as Hm.
  rewrite <- H in Hm. rewrite nth_error_map in Hm.
  destruct (nth_error l' j) as [b'|]; [|discriminate].
  exists b'. split; [reflexivity|]. cbn [option_map] in Hm. congruence.
Qed.

Lemma getAttribute_markup a b n :
  controlMarkup a = controlMarkup b -> getAttribute a n = getAttribute b n.
Proof.
  intros H. apply getAttribute_same.
  exact (f_equal (fun m => fst (fst (fst m))) H).
Qed.

(** What a query returned before a control's listener ran it returns after,
    with other marks at most. *)
Lemma nth_error_view_clickSel (sel sel' : Element -> bool) i j (l : list Element) b n :
  (forall a c, controlMarkup a = controlMarkup c -> sel a = sel c) ->
  nth_error (filter sel l) j = Some b ->
  exists b', nth_error (filter sel (clickSel sel' i l)) j = Some b'
             /\ getAttribute b' n = getAttribute b n.
Proof.
  intros Hsel Hb.
  destruct (nth_error_same_markup (filter sel l) (filter sel (clickSel sel' i l)) j b)
    as [b' [Hb' Hm]]; [|exact Hb|].
  - apply controlMarkup_filter; [exact Hsel | apply controlMarkup_clickSel].
  - exists b'. split; [exact Hb' | now apply getAttribute_markup].
Qed.

Lemma clickSel_cons sel i x (l : list Element) :
  sel (classList_remove "active" x) = sel x ->
  clickSel sel i (x :: l)
  = if sel x
    then match i with
         | O => classList_add "active" (classList_remove "active" x)
                  :: forEachSel sel (classList_remove "active") l
         | S i' => classList_remove "active" x :: clickSel sel i' l
         end
    else x :: clickSel sel i l.
Proof.
  intros Hr. unfold clickSel, forEachSel. cbn [map].
  destruct (sel x) eqn:Ex; cbn [update_sel]; [rewrite Hr | rewrite Ex];
    now destruct i.
Qed.

Lemma forEachSel_cons sel f x (l : list Element) :
  forEachSel sel f (x :: l) = (if sel x then f x else x) :: forEachSel sel f l.
Proof. reflexivity. Qed.



End Compose.

(** ** Listeners of the two kinds of controls *)

Section PassCommute.

Variables selA selB : Element -> bool.
Hypothesis selA_remove : forall x, selA (classList_remove "active" x) = selA x.
Hypothesis selA_add : forall x, selA (classList_add "active" x) = selA x.
Hypothesis selB_remove : forall x, selB (classList_remove "active" x) = selB x.

Lemma forEachSel_remove_commute (l : list Element) :
  forEachSel selB (classList_remove "active")
    (forEachSel selA (classList_remove "active") l)
  = forEachSel selA (classList_remove "active")
      (forEachSel selB (classList_remove "active") l).
Proof.
  unfold forEachSel. rewrite !map_map. apply map_ext. intros x.
  destruct (selA x) eqn:Ea, (selB x) eqn:Eb;
    rewrite ?selA_remove, ?selB_remove, ?Ea, ?Eb; reflexivity.
Qed.

(** Unmarking the A-controls and running the listener of a B-control that
    is no A-control can be done in either order. *)
Lemma clickSel_remove_commute (l : list Element) j b :
  nth_error (filter selB l) j = Some b ->
  selA b = false ->
  clickSel selB j (forEachSel selA (classList_remove "active") l)
  = forEachSel selA (classList_remove "active") (clickSel selB j l).
Proof.
  revert j. induction l as [|x l IH]; intros j Hb Hn; [reflexivity|].
  rewrite forEachSel_cons.
  rewrite (clickSel_cons selB j x l (selB_remove x)).
  cbn [filter] in Hb.
  destruct (selA x) eqn:Ea.
  - rewrite (clickSel_cons selB j _ _ (selB_remove _)), selB_remove.
    destruct (selB x) eqn:Eb.
    + destruct j as [|j]; cbn [nth_error] in Hb.
      * injection Hb as ->. congruence.
      * rewrite forEachSel_cons, selA_remove, Ea. f_equal. now apply (IH j).
    + rewrite forEachSel_cons, Ea. f_equal. now apply (IH j).
  - rewrite (clickSel_cons selB j _ _ (selB_remove _)).
    destruct (selB x) eqn:Eb.
    + destruct j as [|j]; cbn [nth_error] in Hb.
      * rewrite forEachSel_cons, selA_add, selA_remove, Ea. f_equal.
        apply forEachSel_remove_commute.
      * rewrite forEachSel_cons, selA_remove, Ea. f_equal. now apply (IH j).
    + rewrite forEachSel_cons, Ea. f_equal. now apply (IH j).
Qed.

End PassCommute.

Section ClickCommute.

Variables selA selB : Element -> bool.
Hypothesis selA_remove : forall x, selA (classList_remove "active" x) = selA x.
Hypothesis selA_add : forall x, selA (classList_add "active" x) = selA x.
Hypothesis selB_remove : forall x, selB (classList_remove "active" x) = selB x.
Hypothesis selB_add : forall x, selB (classList_add "active" x) = selB x.

(** The listeners of an A-control that is no B-control and of a B-control
    that is no A-control move the marks the same way in either order. *)
Lemma clickSel_commute (l : list Element) i j a b :
  nth_error (filter selA l) i = Some a -> selB a = false ->
  nth_error (filter selB l) j = Some b -> selA b = false ->
  clickSel selB j (clickSel selA i l) = clickSel selA i (clickSel selB j l).
Proof.
  revert i j. induction l as [|x l IH]; intros i j Ha Hna Hb Hnb; [reflexivity|].
  rewrite (clickSel_cons selA i x l (selA_remove x)).
  rewrite (clickSel_cons selB j x l (selB_remove x)).
  cbn [filter] in Ha, Hb.
  destruct (selA x) eqn:Ea, (selB x) eqn:Eb.
  - destruct i as [|i]; cbn [nth_error] in Ha; [injection Ha as ->; congruence|].
    destruct j as [|j]; cbn [nth_error] in Hb; [injection Hb as ->; congruence|].
    rewrite (clickSel_cons selB (S j) _ _ (selB_remove _)), selB_remove, Eb.
    rewrite (clickSel_cons selA (S i) _ _ (selA_remove _)), selA_remove, Ea.
    f_equal. now apply IH.
  - destruct i as [|i]; cbn [nth_error] in Ha.
    + rewrite (clickSel_cons selB j _ _ (selB_remove _)), selB_add, selB_remove, Eb.
      rewrite (clickSel_cons selA 0 _ _ (selA_remove _)), Ea. f_equal.
      now apply (clickSel_remove_commute selA selB selA_remove selA_add selB_remove
                   l j b).
    + rewrite (clickSel_cons selB j _ _ (selB_remove _)), selB_remove, Eb.
      rewrite (clickSel_cons selA (S i) _ _ (selA_remove _)), Ea. f_equal.
      now apply IH.
  - destruct j as [|j]; cbn [nth_error] in Hb.
    + rewrite (clickSel_cons selB 0 _ _ (selB_remove _)), Eb.
      rewrite (clickSel_cons selA i _ _ (selA_remove _)), selA_add, selA_remove, Ea.
      f_equal. symmetry.
      now apply (clickSel_remove_commute selB selA selB_remove selB_add selA_remove
                   l i a).
    + rewrite (clickSel_cons selB (S j) _ _ (selB_remove _)), Eb.
      rewrite (clickSel_cons selA i _ _ (selA_remove _)), selA_remove, Ea. f_equal.
      now apply IH.
  - rewrite (clickSel_cons selB j _ _ (selB_remove _)), Eb.
    rewrite (clickSel_cons selA i _ _ (selA_remove _)), Ea. f_equal.
    now apply IH.
Qed.

End ClickCommute.

(** X9.  A click on a type control that is not a tag control and a click on
    a tag control that is not a type control commute: in either order they
    leave the same state.  (A control of both kinds is unmarked by whichever
    listener runs last.) *)
Theorem type_and_tag_clicks_commute (i j : nat) (s : State) (bt bg : Element) :
  nth_error (type_btn (page s)) i = Some bt ->
  isTagBtn bt = false ->
  nth_error (tag_btn (page s)) j = Some bg ->
  isTypeBtn bg = false ->
  run [ClickType i; ClickTag j] s = run [ClickTag j; ClickType i] s.
Proof.
  intros Et Hnt Eg Hng. cbn [run dispatch].
  rewrite (typeBtn_click_closed _ _ _ Et), (tagBtn_click_closed _ _ _ Eg).
  cbn [bind].
  destruct (nth_error_view_clickSel isTagBtn isTypeBtn i j (controls (page s)) bg
              "data-tag" isTagBtn_markup Eg) as [bg' [Eg' Hg]].
  destruct (nth_error_view_clickSel isTypeBtn isTagBtn j i (controls (page s)) bt
              "data-type" isTypeBtn_markup Et) as [bt' [Et' Ht]].
  rewrite (tagBtn_click_displayed j (reselect _ _ _ s) bg' Eg').
  rewrite (typeBtn_click_displayed i (reselect _ _ _ s) bt' Et').
  rewrite (tagBtn_click_closed j (reselect _ _ _ s) bg' Eg').
  rewrite (typeBtn_click_closed i (reselect _ _ _ s) bt' Et').
  cbn [bind reselect page controls activeType activeTag with_controls scrolls].
  rewrite Hg, Ht.
  rewrite (clickSel_commute isTypeBtn isTagBtn isTypeBtn_remove isTypeBtn_add
             isTagBtn_remove isTagBtn_add (controls (page s)) i j bt bg Et Hnt Eg Hng).
  reflexivity.
Qed.

Lemma type_and_tag_clicks_commute_witness :
  run [ClickType 0; ClickTag 2] Dual.paperSelected
  = run [ClickTag 2; ClickType 0] Dual.paperSelected.
Proof.
  apply (type_and_tag_clicks_commute 0 2 Dual.paperSelected
           (classList_remove "active" (Sample.typeBtn "all" ["active"]))
           (Sample.tagBtn "policy" []));
    reflexivity.
Defined.







Section ClearAbsorbs.

Lemma truthy_clearBtn_displayed_reselect T G cs s :
  truthy (clearBtn (displayed (reselect T G cs s))) = truthy (clearBtn s).
Proof.
  unfold clearBtn. cbn [displayed page clear_filters].
  unfold clearBtn. cbn [reselect page clear_filters with_controls].
  now destruct (clear_filters (page s)).
Qed.

(** Whatever a click has done, the clear listener then leaves the state it
    leaves when run at once, up to the scroll count. *)
Lemma dispatch_then_cleared ev s :
  exists s' n,
    dispatch ev s = Normal s'
    /\ truthy (clearBtn s') = truthy (clearBtn s)
    /\ cleared s' = atScroll n (cleared s).
Proof.
  assert (forall x, cleared x = atScroll (scrolls x) (cleared x)) as Hself
      by reflexivity.
  destruct ev as [i|i|i|]; cbn [dispatch].
  - destruct (nth_error (type_btn (page s)) i) as [btn|] eqn:E.
    + rewrite (typeBtn_click_closed _ _ _ E). do 2 eexists.
      split; [reflexivity|]. split; [apply truthy_clearBtn_displayed_reselect|].
      rewrite cleared_displayed, cleared_reselect_same;
        [apply Hself | apply markAll_clickSel, isTypeBtn_isControl].
    + rewrite (typeBtn_click_none _ _ E). exists s, (scrolls s). now repeat split.
  - destruct (nth_error (tag_btn (page s)) i) as [btn|] eqn:E.
    + rewrite (tagBtn_click_closed _ _ _ E). do 2 eexists.
      split; [reflexivity|]. split; [apply truthy_clearBtn_displayed_reselect|].
      rewrite cleared_displayed, cleared_reselect_same;
        [apply Hself | apply markAll_clickSel, isTagBtn_isControl].
    + rewrite (tagBtn_click_none _ _ E). exists s, (scrolls s). now repeat split.
  - destruct (nth_error (pub_tag (page s)) i) as [pill|];
      [|exists s, (scrolls s); now repeat split].
    rewrite pubTag_click_closed. do 2 eexists.
    split; [reflexivity|]. split.
    * unfold clearBtn at 1. cbn [atScroll page].
      apply truthy_clearBtn_displayed_reselect.
    * rewrite cleared_atScroll, cleared_displayed, cleared_reselect_same;
        [reflexivity | apply markAll_after_markTag].
  - destruct (truthy (clearBtn s)) eqn:E; [|exists s, (scrolls s); now repeat split].
    rewrite clearFilters_cleared. exists (cleared s), (scrolls s).
    split; [reflexivity|]. split.
    * rewrite <- E, cleared_reselect. apply truthy_clearBtn_displayed_reselect.
    * rewrite cleared_idempotent. apply Hself.
Qed.

End ClearAbsorbs.

(** X15.  On a page with a clear control, a click on it wipes out whatever
    click came just before: the selection and the whole page are those a
    click on the clear control alone would leave (only a pill's scroll
    request remains). *)
Theorem clear_absorbs_previous_click (ev : Event) (s : State) (b : Element) :
  clearBtn s = Some b ->
  exists s1 s2,
    run [ev; ClickClear] s = Normal s1
    /\ run [ClickClear] s = Normal s2
    /\ activeType s1 = activeType s2
    /\ activeTag s1 = activeTag s2
    /\ page s1 = page s2.
Proof.
  intros Hb. cbn [run dispatch].
  destruct (dispatch_then_cleared ev s) as [s' [n [Hd [Ht Hc]]]].
  rewrite Hd. cbn [bind]. rewrite Ht, Hb. cbn [truthy].
  rewrite !clearFilters_cleared. cbn [bind].
  exists (cleared s'), (cleared s). split; [reflexivity|]. split; [reflexivity|].
  rewrite Hc. now repeat split.
Qed.

Lemma clear_absorbs_previous_click_witness :
  exists s1 s2,
    run [ClickPill 3; ClickClear] Sample.loaded = Normal s1
    /\ run [ClickClear] Sample.loaded = Normal s2
    /\ activeType s1 = activeType s2
    /\ activeTag s1 = activeTag s2
    /\ page s1 = page s2.
Proof.
  apply (clear_absorbs_previous_click (ClickPill 3) Sample.loaded
           (set_display "none" Sample.plain)).
  reflexivity.
Defined.
(** ** More on the abstract toggle *)

Section Toggle.

Lemma toggleAbstract_hidden c a :
  style_display a = "none" \/ style_display a = "" ->
  toggleAbstract (mkToggle c (Some a)) = Normal (opened c a).
Proof.
  intros H. unfold toggleAbstract. cbn [nextElementSibling read_display bind control].
  destruct H as [-> | ->]; reflexivity.
Qed.

Lemma toggleAbstract_shown c a :
  style_display a <> "none" -> style_display a <> "" ->
  toggleAbstract (mkToggle c (Some a)) = Normal (shut c a).
Proof.
  intros H1 H2. unfold toggleAbstract.
  cbn [nextElementSibling read_display bind control].
  destruct (String.eqb_spec (style_display a) "none"); [contradiction|].
  destruct (String.eqb_spec (style_display a) ""); [contradiction|].
  reflexivity.
Qed.

Lemma toggleAbstract_opened c a : toggleAbstract (opened c a) = Normal (shut c a).
Proof. reflexivity. Qed.

Lemma toggleAbstract_shut c a : toggleAbstract (shut c a) = Normal (opened c a).
Proof. reflexivity. Qed.

Lemma opened_not_shut c a : opened c a <> shut c a.
Proof. unfold opened, shut, set_display. intros H. discriminate. Qed.

Lemma hidden_or_shown a :
  (style_display a = "none" \/ style_display a = "")
  \/ (style_display a <> "none" /\ style_display a <> "").
Proof.
  destruct (String.eqb_spec (style_display a) "none"); [now left; left|].
  destruct (String.eqb_spec (style_display a) ""); [now left; right|].
  now right.
Qed.

End Toggle.

(** X16.  Whatever state a control and its block start in, from the first
    call on toggleAbstract alternates between two states: block shown with
    label "Abstract ▲", block hidden (display "none") with label
    "Abstract ▼".  The third call gives back the state the first call gave,
    so from then on the round trip is exact. *)
Theorem toggleAbstract_alternates (c a : Element) :
  exists t1 t2 t3,
    toggleAbstract (mkToggle c (Some a)) = Normal t1
    /\ toggleAbstract t1 = Normal t2
    /\ toggleAbstract t2 = Normal t3
    /\ t3 = t1
    /\ t2 <> t1
    /\ ((t1 = opened c a /\ t2 = shut c a) \/ (t1 = shut c a /\ t2 = opened c a)).
Proof.
  destruct (hidden_or_shown a) as [H | [H1 H2]].
  - exists (opened c a), (shut c a), (opened c a).
    split; [now apply toggleAbstract_hidden|].
    split; [apply toggleAbstract_opened|]. split; [apply toggleAbstract_shut|].
    split; [reflexivity|]. split; [|now left].
    intros E. symmetry in E. exact (opened_not_shut c a E).
  - exists (shut c a), (opened c a), (shut c a).
    split; [now apply toggleAbstract_shown|].
    split; [apply toggleAbstract_shut|]. split; [apply toggleAbstract_opened|].
    split; [reflexivity|]. split; [apply opened_not_shut | now right].
Qed.

(** X17.  For a control whose block is shown (inline display neither "none"
    nor empty), toggleAbstract hides the block with display "none" and sets
    the label to "Abstract ▼"; the next call shows it with display "block",
    whatever display it had at first. *)
Theorem toggleAbstract_hides_shown (btn : Toggle) (a : Element) :
  nextElementSibling btn = Some a ->
  style_display a <> "none" ->
  style_display a <> "" ->
  exists t1 t2,
    toggleAbstract btn = Normal t1
    /\ nextElementSibling t1 = Some (set_display "none" a)
    /\ control t1 = set_textContent "Abstract ▼" (control btn)
    /\ toggleAbstract t1 = Normal t2
    /\ nextElementSibling t2 = Some (set_display "block" a)
    /\ control t2 = set_textContent "Abstract ▲" (control btn).
Proof.
  intros Ha H1 H2. destruct btn as [c n]. cbn [nextElementSibling] in Ha. subst n.
  exists (shut c a), (opened c a).
  split; [now apply toggleAbstract_shown|].
  split; [reflexivity|]. split; [reflexivity|].
  split; [apply toggleAbstract_shut|]. now split.
Qed.

Lemma toggleAbstract_hides_shown_witness :
  exists t1 t2,
    toggleAbstract (mkToggle (Abstract.button "Abstract ▲") (Some (Abstract.block "flex")))
      = Normal t1
    /\ nextElementSibling t1 = Some (set_display "none" (Abstract.block "flex"))
    /\ control t1 = set_textContent "Abstract ▼" (Abstract.button "Abstract ▲")
    /\ toggleAbstract t1 = Normal t2
    /\ nextElementSibling t2 = Some (set_display "block" (Abstract.block "flex"))
    /\ control t2 = set_textContent "Abstract ▲" (Abstract.button "Abstract ▲").
Proof.
  apply (toggleAbstract_hides_shown
           (mkToggle (Abstract.button "Abstract ▲") (Some (Abstract.block "flex")))
           (Abstract.block "flex")).
  - reflexivity.
  - discriminate.
  - discriminate.
Defined.

(** X18.  toggleAbstract throws exactly when the control has no next
    sibling.  Otherwise it writes only the block's inline display ("block"
    or "none") and the control's text (one of the two labels): attributes
    and class tokens of both, the block's text and the control's display
    are unchanged. *)
Theorem toggleAbstract_effects (btn : Toggle) :
  (nextElementSibling btn = None /\ toggleAbstract btn = TypeError)
  \/ exists a t a',
      nextElementSibling btn = Some a
      /\ toggleAbstract btn = Normal t
      /\ nextElementSibling t = Some a'
      /\ attributes a' = attributes a
      /\ classList a' = classList a
      /\ textContent a' = textContent a
      /\ (style_display a' = "block" \/ style_display a' = "none")
      /\ attributes (control t) = attributes (control btn)
      /\ classList (control t) = classList (control btn)
      /\ style_display (control t) = style_display (control btn)
      /\ (textContent (control t) = "Abstract ▲" \/ textContent (control t) = "Abstract ▼").
Proof.
  destruct btn as [c [a|]]; [right | left; now split].
  destruct (hidden_or_shown a) as [H | [H1 H2]].
  - exists a, (opened c a), (set_display "block" a).
    split; [reflexivity|]. split; [now apply toggleAbstract_hidden|].
    repeat (split; [reflexivity|]). split; [now left|].
    repeat (split; [reflexivity|]). now left.
  - exists a, (shut c a), (set_display "none" a).
    split; [reflexivity|]. split; [now apply toggleAbstract_shown|].
    repeat (split; [reflexivity|]). split; [now right|].
    repeat (split; [reflexivity|]). now right.
Qed.

(** ** An empty tag *)

Lemma tagMatch_empty (e : Element) : tagMatch (Some "") e = true.
Proof.
  unfold tagMatch, indexOf. cbn [ToString strict_eq].
  destruct (or_else (getAttribute e "data-tags") ""); reflexivity.
Qed.

(** X19.  With the empty string as active tag (a tag control or pill whose
    data-tag is empty) the tag test passes for every entry, so an entry is
    visible exactly when its type matches; yet the clear control is shown,
    the empty string not being "all". *)
Theorem updateDisplay_empty_tag (s : State) :
  activeTag s = Some "" ->
  exists s',
    updateDisplay s = Normal s'
    /\ (forall i E, nth_error (allPubs s) i = Some E ->
          exists E', nth_error (allPubs s') i = Some E'
                     /\ (isVisible E' = true
                         <-> activeType s = Some "all"
                             \/ getAttribute E "data-type" = activeType s))
    /\ (forall b, clearBtn s' = Some b -> style_display b = "inline-block").
Proof.
  intros HG. exists (displayed s). split; [apply updateDisplay_displayed|]. split.
  - intros i E HE. exists (showOne (activeType s) (activeTag s) E).
    split; [unfold allPubs in *; cbn [displayed page pub_entry]; now apply map_nth_error|].
    rewrite showOne_visible, HG, tagMatch_empty, andb_true_r. apply typeMatch_iff.
  - intros b Hb. unfold clearBtn in Hb. cbn [displayed page clear_filters] in Hb.
    unfold clearBtn in Hb. destruct (clear_filters (page s)); [|discriminate].
    cbn [option_map] in Hb. injection Hb as <-. cbn [set_display style_display].
    apply clearDisplay_shown. right. rewrite HG. discriminate.
Qed.

Lemma updateDisplay_empty_tag_witness :
  exists s',
    updateDisplay (mkState (Some "paper") (Some "") Sample.research 0) = Normal s'
    /\ (forall i E,
          nth_error (allPubs (mkState (Some "paper") (Some "") Sample.research 0)) i
          = Some E ->
          exists E', nth_error (allPubs s') i = Some E'
                     /\ (isVisible E' = true
                         <-> Some "paper" = Some "all"
                             \/ getAttribute E "data-type" = Some "paper"))
    /\ (forall b, clearBtn s' = Some b -> style_display b = "inline-block").
Proof.
  apply (updateDisplay_empty_tag (mkState (Some "paper") (Some "") Sample.research 0)).
  reflexivity.
Defined.
